(** * Multi-vendor routing and fallback engine of TradingAgentsWeb

    Shallow embedding of [tradingagents/dataflows/market_utils.py] and
    [tradingagents/dataflows/interface.py].

    Strings are Rocq [string]s; character classes ([str.upper],
    [str.strip], [\d], [[A-Z]]) are modelled on their ASCII part:
    characters at or above 128 have no case, are not whitespace and are not
    digits. *)

From Stdlib Require Import String Ascii List Bool Arith Lia.
Import ListNotations.
Open Scope string_scope.
Open Scope list_scope.
Open Scope nat_scope.

(* ------------------------------------------------------------------ *)
(** ** Python string primitives (ASCII part) *)

Module Py.

Definition is_digit (c : ascii) : bool :=
  let n := nat_of_ascii c in (48 <=? n) && (n <=? 57).

Definition is_upper (c : ascii) : bool :=
  let n := nat_of_ascii c in (65 <=? n) && (n <=? 90).

Definition is_lower (c : ascii) : bool :=
  let n := nat_of_ascii c in (97 <=? n) && (n <=? 122).

(** [str.isspace] on ASCII: \t \n \v \f \r, \x1c-\x1f and the space. *)
Definition is_space (c : ascii) : bool :=
  let n := nat_of_ascii c in
  ((9 <=? n) && (n <=? 13)) || ((28 <=? n) && (n <=? 32)).

Definition char_upper (c : ascii) : ascii :=
  if is_lower c then ascii_of_nat (nat_of_ascii c - 32) else c.

Definition char_lower (c : ascii) : ascii :=
  if is_upper c then ascii_of_nat (nat_of_ascii c + 32) else c.

Fixpoint map_chars (f : ascii -> ascii) (s : string) : string :=
  match s with
  | EmptyString => EmptyString
  | String c s' => String (f c) (map_chars f s')
  end.

Definition upper (s : string) : string := map_chars char_upper s.
Definition lower (s : string) : string := map_chars char_lower s.

Fixpoint lstrip (s : string) : string :=
  match s with
  | EmptyString => EmptyString
  | String c s' => if is_space c then lstrip s' else s
  end.

Definition rev_string (s : string) : string :=
  string_of_list_ascii (rev (list_ascii_of_string s)).

Definition rstrip (s : string) : string := rev_string (lstrip (rev_string s)).

Definition strip (s : string) : string := rstrip (lstrip s).

Definition startswith (s p : string) : bool := String.prefix p s.

Definition endswith (s p : string) : bool :=
  String.prefix (rev_string p) (rev_string s).

(** [sub in s] *)
Fixpoint contains (sub s : string) : bool :=
  String.prefix sub s ||
  match s with
  | EmptyString => false
  | String _ s' => contains sub s'
  end.

Definition char_in (c : ascii) (s : string) : bool := contains (String c EmptyString) s.

(** [s[n:]] *)
Definition drop (n : nat) (s : string) : string :=
  String.substring n (String.length s - n) s.

Fixpoint repeat_char (n : nat) (c : ascii) : string :=
  match n with
  | O => EmptyString
  | S k => String c (repeat_char k c)
  end.

(** [s.zfill(w)]: pad with '0' on the left, after a leading sign. *)
Definition zfill (s : string) (w : nat) : string :=
  let l := String.length s in
  if w <=? l then s
  else match s with
       | String c s' =>
           if (c =? "+")%char || (c =? "-")%char
           then String c (repeat_char (w - l) "0"%char ++ s')
           else repeat_char (w - l) "0"%char ++ s
       | EmptyString => repeat_char w "0"%char
       end.

(** [s.replace(old, new)] for a non-empty [old]: every non-overlapping
    occurrence, scanning left to right. *)
Fixpoint replace_fuel (fuel : nat) (old new s : string) : string :=
  match fuel, s with
  | O, _ => s
  | _, EmptyString => EmptyString
  | S f, String c s' =>
      if String.prefix old s
      then new ++ replace_fuel f old new (drop (String.length old) s)
      else String c (replace_fuel f old new s')
  end.

Definition replace (old new s : string) : string :=
  replace_fuel (String.length s) old new s.

(** [s.split(sep)] for a one-character separator. *)
Fixpoint split (sep : ascii) (s : string) : list string :=
  match s with
  | EmptyString => [EmptyString]
  | String c s' =>
      if (c =? sep)%char then EmptyString :: split sep s'
      else match split sep s' with
           | w :: ws => String c w :: ws
           | [] => [String c EmptyString]
           end
  end.

(** [sep.join(l)] *)
Definition join (sep : string) (l : list string) : string := String.concat sep l.

(** [x in l] for a list of strings. *)
Definition in_list (x : string) (l : list string) : bool :=
  existsb (String.eqb x) l.

(** Python truthiness of a string. *)
Definition truthy (s : string) : bool := negb (String.eqb s "").

End Py.

(* ------------------------------------------------------------------ *)
(** ** [market_utils.py]: [MarketIdentifier] *)

Module MarketIdentifier.
Import Py.

Definition all_chars (p : ascii -> bool) (s : string) : bool :=
  forallb p (list_ascii_of_string s).

(** [\d{n}] / [\d{a,b}] / [[A-Z]{a,b}] matched against a whole string. *)
Definition digits_between (a b : nat) (s : string) : bool :=
  (a <=? String.length s) && (String.length s <=? b) && all_chars is_digit s.
Definition uppers_between (a b : nat) (s : string) : bool :=
  (a <=? String.length s) && (String.length s <=? b) && all_chars is_upper s.
Definition digits_plus (s : string) : bool := digits_between 1 (String.length s) s.
Definition uppers_plus (s : string) : bool := uppers_between 1 (String.length s) s.

(** [X\.Y] as a whole string, for character classes X and Y without '.' *)
Definition dotted (x y : string -> bool) (s : string) : bool :=
  match split "."%char s with
  | [l; r] => x l && y r
  | _ => false
  end.

(** [A_STOCK_PATTERNS], in order.  The symbol has been stripped, so the
    [$] before a trailing newline case of [re.match] cannot occur. *)
Definition A_STOCK_PATTERNS : list (string -> bool) := [
  (* ^(000|002|003)\d{3}$ *)
  (fun s => (startswith s "000" || startswith s "002" || startswith s "003")
            && digits_between 6 6 s);
  (* ^30\d{4}$ *)  (fun s => startswith s "30" && digits_between 6 6 s);
  (* ^60\d{4}$ *)  (fun s => startswith s "60" && digits_between 6 6 s);
  (* ^68\d{4}$ *)  (fun s => startswith s "68" && digits_between 6 6 s);
  (* ^8\d{5}$ *)   (fun s => startswith s "8" && digits_between 6 6 s);
  (* ^4\d{5}$ *)   (fun s => startswith s "4" && digits_between 6 6 s)
].

Definition HK_STOCK_PATTERNS : list (string -> bool) := [
  (* ^\d{4,5}\.HK$ *)
  (fun s => endswith s ".HK"
            && digits_between 4 5 (String.substring 0 (String.length s - 3) s));
  (* ^\d{4,5}$ *)  (fun s => digits_between 4 5 s)
].

Definition US_STOCK_PATTERNS : list (string -> bool) := [
  (* ^[A-Z]{1,5}$ *)      (fun s => uppers_between 1 5 s);
  (* ^[A-Z]+\.[A-Z]+$ *)  (dotted uppers_plus uppers_plus);
  (* ^\d+\.[A-Z]+$ *)     (dotted digits_plus uppers_plus)
].

Definition any_match (pats : list (string -> bool)) (s : string) : bool :=
  existsb (fun p => p s) pats.

Definition identify_market (symbol : string) : string :=
  let symbol := strip (upper symbol) in
  if any_match A_STOCK_PATTERNS symbol then "A_STOCK"
  else if any_match HK_STOCK_PATTERNS symbol then "HK_STOCK"
  else if any_match US_STOCK_PATTERNS symbol then "US_STOCK"
  else "UNKNOWN".

(** [format_symbol_for_vendor(symbol, vendor, market=None)]; [None] is the
    omitted [market] argument. *)
Definition format_symbol_for_vendor (symbol vendor : string) (market : option string)
  : string :=
  let market := match market with None => identify_market symbol | Some m => m end in
  let symbol := strip (upper symbol) in
  if String.eqb vendor "akshare" then
    if String.eqb market "A_STOCK" then
      if startswith symbol "sz" || startswith symbol "sh" then drop 2 symbol
      else symbol
    else if String.eqb market "HK_STOCK" then zfill (replace ".HK" "" symbol) 5
    else if String.eqb market "US_STOCK" then symbol
    else symbol
  else if String.eqb vendor "baostock" then
    if String.eqb market "A_STOCK" then
      if startswith symbol "000" || startswith symbol "002"
         || startswith symbol "003" || startswith symbol "30"
      then "sz." ++ symbol
      else if startswith symbol "60" || startswith symbol "68" then "sh." ++ symbol
      else symbol
    else symbol
  else if in_list vendor ["yfinance"; "alpha_vantage"] then
    if String.eqb market "A_STOCK" then
      if startswith symbol "000" || startswith symbol "002"
         || startswith symbol "003" || startswith symbol "30"
      then symbol ++ ".SZ"
      else if startswith symbol "60" || startswith symbol "68" then symbol ++ ".SS"
      else symbol
    else if String.eqb market "HK_STOCK" then
      if negb (endswith symbol ".HK") then zfill symbol 4 ++ ".HK" else symbol
    else if String.eqb market "US_STOCK" then symbol
    else symbol
  else symbol.

Definition get_supported_markets (vendor : string) : list string :=
  if String.eqb vendor "akshare" then ["A_STOCK"; "HK_STOCK"; "US_STOCK"]
  else if String.eqb vendor "baostock" then ["A_STOCK"]
  else if String.eqb vendor "yfinance" then ["A_STOCK"; "HK_STOCK"; "US_STOCK"]
  else if String.eqb vendor "alpha_vantage" then ["US_STOCK"]
  else [].

Definition is_market_supported (symbol vendor : string) : bool :=
  in_list (identify_market symbol) (get_supported_markets vendor).

End MarketIdentifier.

(** [get_market_info(symbol)] *)
Record MarketInfo := {
  mi_symbol : string;
  mi_market : string;
  mi_market_name : string;
  mi_timezone : string;
  mi_currency : string
}.

Definition dict_get (d : list (string * string)) (k dflt : string) : string :=
  match find (fun kv => String.eqb (fst kv) k) d with
  | Some kv => snd kv
  | None => dflt
  end.

Definition get_market_info (symbol : string) : MarketInfo :=
  let market := MarketIdentifier.identify_market symbol in
  {| mi_symbol := symbol;
     mi_market := market;
     mi_market_name := dict_get [("A_STOCK", "中国A股"); ("HK_STOCK", "香港股市");
                                 ("US_STOCK", "美国股市"); ("UNKNOWN", "未知市场")]
                                market "未知市场";
     mi_timezone := dict_get [("A_STOCK", "Asia/Shanghai"); ("HK_STOCK", "Asia/Hong_Kong");
                              ("US_STOCK", "America/New_York"); ("UNKNOWN", "UTC")]
                             market "UTC";
     mi_currency := dict_get [("A_STOCK", "CNY"); ("HK_STOCK", "HKD");
                              ("US_STOCK", "USD"); ("UNKNOWN", "USD")]
                             market "USD" |}.

(* ------------------------------------------------------------------ *)
(** ** [interface.py]: [_is_indicator_result_invalid] *)

Module Quality.
Import Py.

Definition digit_val (c : ascii) : nat := nat_of_ascii c - 48.

Definition is_leap (y : nat) : bool :=
  (Nat.eqb (y mod 4) 0 && negb (Nat.eqb (y mod 100) 0)) || Nat.eqb (y mod 400) 0.

Definition days_in_month (y m : nat) : nat :=
  match m with
  | 1 | 3 | 5 | 7 | 8 | 10 | 12 => 31
  | 4 | 6 | 9 | 11 => 30
  | 2 => if is_leap y then 29 else 28
  | _ => 0
  end.

(** The day group of [_strptime]'s regex for [%d],
    [3[01]|[12]\d|0[1-9]|[1-9]| [1-9]], followed by the check that no
    unconverted data remains: the first alternative that matches must
    consume all the rest. *)
Definition strptime_day (r : list ascii) : option nat :=
  match r with
  | [a; b] =>
      if ((a =? "3")%char && ((b =? "0")%char || (b =? "1")%char))
         || (((a =? "1")%char || (a =? "2")%char) && is_digit b)
         || ((a =? "0")%char && is_digit b && negb (b =? "0")%char)
      then Some (10 * digit_val a + digit_val b)
      else if (a =? " ")%char && is_digit b && negb (b =? "0")%char
      then Some (digit_val b)
      else None
  | [a] => if is_digit a && negb (a =? "0")%char then Some (digit_val a) else None
  | _ => None
  end.

(** [%m]: [1[0-2]|0[1-9]|[1-9]], then the literal '-' of the format. *)
Definition strptime_month (r : list ascii) : option (nat * list ascii) :=
  match r with
  | a :: b :: "-"%char :: rest =>
      if ((a =? "1")%char && ((b =? "0")%char || (b =? "1")%char || (b =? "2")%char))
         || ((a =? "0")%char && is_digit b && negb (b =? "0")%char)
      then Some (10 * digit_val a + digit_val b, rest)
      else None
  | a :: "-"%char :: rest =>
      if is_digit a && negb (a =? "0")%char then Some (digit_val a, rest) else None
  | _ => None
  end.

(** [datetime.strptime(date_part, '%Y-%m-%d')] succeeds: [%Y] is four
    digits, and the date must exist (year at least 1, day within month). *)
Definition strptime_ymd (s : string) : bool :=
  match list_ascii_of_string s with
  | y1 :: y2 :: y3 :: y4 :: "-"%char :: rest =>
      if is_digit y1 && is_digit y2 && is_digit y3 && is_digit y4 then
        let y := 1000 * digit_val y1 + 100 * digit_val y2 + 10 * digit_val y3 + digit_val y4 in
        match strptime_month rest with
        | Some (m, r) =>
            match strptime_day r with
            | Some d => (1 <=? y) && (1 <=? d) && (d <=? days_in_month y m)
            | None => false
            end
        | None => false
        end
      else false
  | _ => false
  end.

Fixpoint take_digits (l : list ascii) : nat * list ascii :=
  match l with
  | c :: r => if is_digit c then let '(n, r') := take_digits r in (S n, r') else (0, l)
  | [] => (0, [])
  end.

Definition drop_sign (l : list ascii) : list ascii :=
  match l with
  | c :: r => if (c =? "+")%char || (c =? "-")%char then r else l
  | [] => []
  end.

(** [float(value_part)] succeeds: a decimal literal with optional sign,
    fraction and exponent, or inf / infinity / nan, surrounded by
    whitespace.  (Digit-group underscores are not modelled; the result
    of the gate does not depend on this test, see [line_counts].) *)
Definition py_float (s : string) : bool :=
  let l := drop_sign (list_ascii_of_string (strip s)) in
  if in_list (lower (string_of_list_ascii l)) ["inf"; "infinity"; "nan"] then true
  else
    let '(n1, r1) := take_digits l in
    let '(n2, r2) := match r1 with
                     | "."%char :: r => take_digits r
                     | _ => (0, r1)
                     end in
    (0 <? n1 + n2) &&
    match r2 with
    | [] => true
    | e :: r =>
        ((e =? "e")%char || (e =? "E")%char) &&
        (let '(n3, r3) := take_digits (drop_sign r) in
         (0 <? n3) && match r3 with [] => true | _ => false end)
    end.

Definition KEYWORDS : list string :=
  ["n/a"; "not a trading day"; "weekend"; "holiday"; "invalid";
   "no data"; "error"; "failed"; "无数据"; "节假日"; "非交易日"].

(** One iteration of the loop: the increments of
    ([date_line_count], [valid_data_count]). *)
Definition line_counts (line : string) : nat * nat :=
  let line := strip line in
  let parts := split ":"%char line in
  if char_in ":"%char line && Nat.eqb (String.length (strip (hd "" parts))) 10 then
    let date_part := strip (hd "" parts) in
    if strptime_ymd date_part then
      let value_part := strip (join ":" (tl parts)) in
      if negb (existsb (fun keyword => contains keyword (lower value_part)) KEYWORDS) then
        if py_float value_part then (1, 1)
        else if truthy value_part then (1, 1)
        else (1, 0)
      else (1, 0)
    else (0, 0)
  else (0, 0).

Fixpoint count_lines (lines : list string) : nat * nat :=
  match lines with
  | [] => (0, 0)
  | l :: ls => let '(d, v) := line_counts l in
               let '(d', v') := count_lines ls in (d + d', v + v')
  end.

Definition date_line_count (s : string) : nat := fst (count_lines (split "010"%char s)).
Definition valid_data_count (s : string) : nat := snd (count_lines (split "010"%char s)).

(** [valid_data_count / date_line_count < 0.3], computed exactly on the
    rationals (the source divides in binary floating point). *)
Definition ratio_below_030 (valid date : nat) : bool := valid * 10 <? date * 3.

Definition _is_indicator_result_invalid (result_content : string) : bool :=
  if negb (truthy result_content) then true
  else
    let date_count := date_line_count result_content in
    let valid_count := valid_data_count result_content in
    if Nat.eqb date_count 0 then true
    else ratio_below_030 valid_count date_count.

End Quality.

(* ------------------------------------------------------------------ *)
(** ** [interface.py]: catalog, configuration and [route_to_vendor] *)

Module Router.
Import Py.

(** Values returned by adapters: a [str], or any other Python object,
    represented by its [str()] text. *)
Inductive Value : Type :=
| VStr (s : string)
| VObj (repr : string).

(** [str(result)] *)
Definition py_str (v : Value) : string :=
  match v with VStr s => s | VObj r => r end.

Inductive NetErrorClass : Type :=
| ConnectionError | ConnectionAbortedError | ConnectionResetError | TimeoutError.

(** Exceptions an adapter may raise.  [OtherError] carries its class name,
    its [str(e)] and whether the class derives from [Exception] (those that
    do not, such as [KeyboardInterrupt], derive from [BaseException] only). *)
Inductive Exc : Type :=
| AlphaVantageRateLimitError (msg : string)
| NetworkError (cls : NetErrorClass) (msg : string)
| OtherError (cls_name msg : string) (is_exception : bool).

Inductive Behaviour : Type :=
| Returns (v : Value)
| Raises (e : Exc).

(** What the [except] clauses record for one adapter call. *)
Inductive CallKind : Type :=
| CallSuccess | CallRateLimit | CallNetwork | CallFailed | CallPropagated.

(** A vendor's implementation: one callable or a list of callables
    (named by their [__name__]). *)
Inductive Impl : Type :=
| Single (name : string)
| Multi (names : list string).

Definition impl_names (i : Impl) : list string :=
  match i with Single n => [n] | Multi ns => ns end.

Definition TOOLS_CATEGORIES : list (string * list string) := [
  ("core_stock_apis", ["get_stock_data"]);
  ("technical_indicators", ["get_indicators"]);
  ("fundamental_data", ["get_fundamentals"; "get_balance_sheet"; "get_cashflow";
                        "get_income_statement"]);
  ("news_data", ["get_news"; "get_global_news"; "get_insider_sentiment";
                 "get_insider_transactions"]);
  ("realtime_data", ["get_realtime_data"]);
  ("dividend_data", ["get_dividend_data"])
].

Definition VENDOR_METHODS : list (string * list (string * Impl)) := [
  ("get_stock_data",
   [("alpha_vantage", Single "get_stock"); ("yfinance", Single "get_YFin_data_online");
    ("akshare", Single "get_stock_data"); ("baostock", Single "get_stock_data");
    ("local", Single "get_YFin_data")]);
  ("get_indicators",
   [("alpha_vantage", Single "get_indicator");
    ("yfinance", Single "get_stock_stats_indicators_window");
    ("akshare", Single "get_akshare_indicators");
    ("local", Single "get_stock_stats_indicators_window")]);
  ("get_fundamentals",
   [("alpha_vantage", Single "get_fundamentals"); ("akshare", Single "get_stock_info");
    ("baostock", Single "get_fundamentals"); ("openai", Single "get_fundamentals_openai")]);
  ("get_balance_sheet",
   [("alpha_vantage", Single "get_balance_sheet"); ("yfinance", Single "get_balance_sheet");
    ("akshare", Single "<lambda>"); ("baostock", Single "<lambda>");
    ("local", Single "get_simfin_balance_sheet")]);
  ("get_cashflow",
   [("alpha_vantage", Single "get_cashflow"); ("yfinance", Single "get_cashflow");
    ("akshare", Single "<lambda>"); ("baostock", Single "<lambda>");
    ("local", Single "get_simfin_cashflow")]);
  ("get_income_statement",
   [("alpha_vantage", Single "get_income_statement"); ("yfinance", Single "get_income_statement");
    ("akshare", Single "<lambda>"); ("baostock", Single "<lambda>");
    ("local", Single "get_simfin_income_statements")]);
  ("get_news",
   [("akshare", Single "get_stock_news"); ("alpha_vantage", Single "get_news");
    ("openai", Single "get_stock_news_openai"); ("google", Single "get_google_news");
    ("local", Multi ["get_finnhub_news"; "get_reddit_company_news"; "get_google_news"])]);
  ("get_global_news",
   [("akshare", Single "get_global_news"); ("openai", Single "get_global_news_openai");
    ("local", Single "get_reddit_global_news")]);
  ("get_insider_sentiment",
   [("akshare", Single "get_market_sentiment");
    ("local", Single "get_finnhub_company_insider_sentiment")]);
  ("get_insider_transactions",
   [("alpha_vantage", Single "get_insider_transactions");
    ("yfinance", Single "get_insider_transactions");
    ("local", Single "get_finnhub_company_insider_transactions")]);
  ("get_realtime_data", [("akshare", Single "get_realtime_data")]);
  ("get_dividend_data", [("baostock", Single "<lambda>")])
].

(** Lookup in a Python dict, modelled as an association list. *)
Definition assoc {A : Type} (k : string) (d : list (string * A)) : option A :=
  option_map snd (find (fun kv => String.eqb (fst kv) k) d).

Definition get_category_for_method (method : string) : option string :=
  option_map fst (find (fun ci => in_list method (snd ci)) TOOLS_CATEGORIES).

(** [market_vendors[market]]: a dict whose keys "primary" and "fallback"
    may be absent. *)
Record MarketConfig := { mc_primary : option string; mc_fallback : option string }.

(** The dict returned by [get_config()]; an absent top-level key is the
    empty dict of the [.get(..., {})] default. *)
Record Config := {
  data_vendors : list (string * string);
  tool_vendors : list (string * string);
  market_vendors : list (string * MarketConfig)
}.

Definition get_or (o : option string) (dflt : string) : string :=
  match o with Some s => s | None => dflt end.

(** Market layer of [get_vendor]; [None] when it does not return. *)
Definition market_layer (config : Config) (symbol : option string) : option string :=
  match symbol with
  | Some s =>
      if truthy s then
        match assoc (mi_market (get_market_info s)) (market_vendors config) with
        | Some market_config =>
            let primary := get_or (mc_primary market_config) "" in
            let fallback := get_or (mc_fallback market_config) "" in
            if truthy primary && truthy fallback then Some (primary ++ "," ++ fallback)%string
            else if truthy primary then Some primary
            else if truthy fallback then Some fallback
            else None
        | None => None
        end
      else None
  | None => None
  end.

Definition get_vendor (config : Config) (category : string) (method symbol : option string)
  : string :=
  match market_layer config symbol with
  | Some r => r
  | None =>
      match match method with
            | Some m => if truthy m then assoc m (tool_vendors config) else None
            | None => None
            end with
      | Some r => r
      | None => get_or (assoc category (data_vendors config)) "default"
      end
  end.

(** Symbol extraction of [route_to_vendor]: [args[0]], else
    [kwargs['symbol']], else [kwargs['ticker']]. *)
Definition extract_symbol (args : list string) (kwargs : list (string * string))
  : option string :=
  match args with
  | a :: _ => Some a
  | [] => match assoc "symbol" kwargs with
          | Some s => Some s
          | None => assoc "ticker" kwargs
          end
  end.

(** The test at line 304 of [route_to_vendor]. *)
Definition market_specific (config : Config) (symbol : option string) : bool :=
  match symbol with
  | Some s => truthy s &&
              match assoc (mi_market (get_market_info s)) (market_vendors config) with
              | Some _ => true
              | None => false
              end
  | None => false
  end.

(** [fallback_vendors] *)
Definition build_fallback_vendors (config : Config) (symbol : option string)
  (table : list (string * Impl)) (primary_vendors : list string) : list string :=
  if market_specific config symbol then primary_vendors
  else fold_left (fun acc vendor => if in_list vendor acc then acc else acc ++ [vendor])
                 (map fst table) primary_vendors.

(** Adapter behaviour: [env vendor i] is what the [i]-th callable of
    [vendor]'s implementation does when called with the call's arguments. *)
Definition Env := string -> nat -> Behaviour.

(** [str(e)] *)
Definition exc_str (e : Exc) : string :=
  match e with
  | AlphaVantageRateLimitError m => m
  | NetworkError _ m => m
  | OtherError _ m _ => m
  end.

Definition NETWORK_KEYWORDS : list string :=
  ["connection"; "network"; "timeout"; "remote"; "aborted"].

(** The three [except] clauses of the inner loop, in order; [None] when
    none of them catches the exception. *)
Definition classify_exception (e : Exc) : option CallKind :=
  match e with
  | AlphaVantageRateLimitError _ => Some CallRateLimit
  | NetworkError _ _ => Some CallNetwork
  | OtherError _ msg true =>
      if existsb (fun keyword => contains keyword (lower msg)) NETWORK_KEYWORDS
      then Some CallNetwork else Some CallFailed
  | OtherError _ _ false => None
  end.

Definition CallEvent : Type := (string * string * CallKind)%type.

(** [for impl_func, vendor_name in vendor_methods: try ... except ...]:
    the values returned, one event per call, and the exception that
    escapes, if any. *)
Fixpoint run_vendor_methods (env : Env) (vendor : string) (i : nat) (impls : list string)
  : list Value * list CallEvent * option Exc :=
  match impls with
  | [] => ([], [], None)
  | impl :: rest =>
      match env vendor i with
      | Returns v =>
          let '(vs, evs, e) := run_vendor_methods env vendor (S i) rest in
          (v :: vs, (vendor, impl, CallSuccess) :: evs, e)
      | Raises ex =>
          match classify_exception ex with
          | Some k =>
              let '(vs, evs, e) := run_vendor_methods env vendor (S i) rest in
              (vs, (vendor, impl, k) :: evs, e)
          | None => ([], [(vendor, impl, CallPropagated)], Some ex)
          end
      end
  end.

(** Execution state of the vendor loop.  [attempted] lists the vendors
    counted by [vendor_attempt_count], in order; [calls] every adapter
    invocation.  The variables used only for printing are not modelled. *)
Record State := mkState {
  results : list Value;
  vendor_attempt_count : nat;
  successful_vendor : option string;
  attempted : list string;
  calls : list CallEvent
}.

Definition init_state : State := mkState [] 0 None [] [].

Definition count_attempt (vendor : string) (st : State) : State :=
  mkState (results st) (S (vendor_attempt_count st)) (successful_vendor st)
          (attempted st ++ [vendor]) (calls st).

Definition add_calls (evs : list CallEvent) (st : State) : State :=
  mkState (results st) (vendor_attempt_count st) (successful_vendor st)
          (attempted st) (calls st ++ evs).

Definition accept (vendor : string) (vendor_results : list Value) (st : State) : State :=
  mkState (results st ++ vendor_results) (vendor_attempt_count st) (Some vendor)
          (attempted st) (calls st).

Definition should_fallback_due_to_invalid_data (method : string) (vendor_results : list Value)
  : bool :=
  match vendor_results with
  | [r] => String.eqb method "get_indicators" && Quality._is_indicator_result_invalid (py_str r)
  | _ => false
  end.

Definition stop_after_first_success (method : string) (primary_vendors : list string) : bool :=
  Nat.eqb (length primary_vendors) 1 || in_list method ["get_indicators"; "get_stock_data"].

(** [for vendor in fallback_vendors: ...]; [table] is
    [VENDOR_METHODS[method]].  The second component is an exception that
    escapes the loop. *)
Fixpoint run_loop (env : Env) (method : string) (table : list (string * Impl))
  (primary_vendors : list string) (plan : list string) (st : State) : State * option Exc :=
  match plan with
  | [] => (st, None)
  | vendor :: rest =>
      match assoc vendor table with
      | None => run_loop env method table primary_vendors rest st
      | Some vendor_impl =>
          let st := count_attempt vendor st in
          let '(vendor_results, evs, exc) := run_vendor_methods env vendor 0 (impl_names vendor_impl) in
          let st := add_calls evs st in
          match exc with
          | Some e => (st, Some e)
          | None =>
              match vendor_results with
              | [] => run_loop env method table primary_vendors rest st
              | _ =>
                  if should_fallback_due_to_invalid_data method vendor_results
                  then run_loop env method table primary_vendors rest st
                  else
                    let st := accept vendor vendor_results st in
                    if stop_after_first_success method primary_vendors then (st, None)
                    else run_loop env method table primary_vendors rest st
              end
          end
      end
  end.

(** What the caller observes. *)
Inductive Outcome : Type :=
| Ok (v : Value)
| ValueError (msg : string)
| RuntimeError (msg : string)
| Propagated (e : Exc).

Definition newline : string := String "010"%char EmptyString.

(** [results[0]] if there is one result, else ['\n'.join(str(r) ...)]. *)
Definition final_result (rs : list Value) : Value :=
  match rs with
  | [r] => r
  | _ => VStr (join newline (map py_str rs))
  end.

Definition route_to_vendor (config : Config) (env : Env) (method : string)
  (args : list string) (kwargs : list (string * string)) : Outcome * State :=
  match get_category_for_method method with
  | None => (ValueError ("Method '" ++ method ++ "' not found in any category")%string, init_state)
  | Some category =>
      let symbol := extract_symbol args kwargs in
      let vendor_config := get_vendor config category (Some method) symbol in
      let primary_vendors := map strip (split ","%char vendor_config) in
      match assoc method VENDOR_METHODS with
      | None => (ValueError ("Method '" ++ method ++ "' not supported")%string, init_state)
      | Some table =>
          let fallback_vendors := build_fallback_vendors config symbol table primary_vendors in
          let '(st, exc) := run_loop env method table primary_vendors fallback_vendors init_state in
          match exc with
          | Some e => (Propagated e, st)
          | None =>
              match results st with
              | [] => (RuntimeError ("All vendor implementations failed for method '"
                                     ++ method ++ "'")%string, st)
              | rs => (Ok (final_result rs), st)
              end
          end
      end
  end.

(** The fallback plan [route_to_vendor] builds for a call. *)
Definition fallback_plan (config : Config) (method : string) (args : list string)
  (kwargs : list (string * string)) : list string :=
  let symbol := extract_symbol args kwargs in
  match get_category_for_method method with
  | None => []
  | Some category =>
      let primary_vendors := map strip (split ","%char (get_vendor config category (Some method) symbol)) in
      match assoc method VENDOR_METHODS with
      | None => []
      | Some table => build_fallback_vendors config symbol table primary_vendors
      end
  end.

End Router.

(* ------------------------------------------------------------------ *)
(** ** [akshare_common.py] and [baostock_common.py] *)

(** Raising functions return [inl] on normal return and [inr msg] when they
    raise, [msg] being the exception's [str()]. *)
Module AKShareCommon.
Import Py.

Definition format_symbol_for_market (symbol market : string) : string :=
  MarketIdentifier.format_symbol_for_vendor symbol "akshare" (Some market).

(** [validate_date_format]: [inr] is the [ValueError] raised. *)
Definition validate_date_format (date_str : string) : unit + string :=
  if Quality.strptime_ymd date_str then inl tt
  else inr ("Invalid date format: " ++ date_str ++ ". Expected YYYY-MM-DD format.")%string.

Definition format_date_for_akshare (date_str market : string) : string :=
  replace "-" "" date_str.

Definition symbol_info (symbol : option string) : string :=
  match symbol with
  | Some s => if truthy s then (" for " ++ s)%string else ""
  | None => ""
  end.

(** [handle_akshare_exception(e, operation, symbol)], [e_str] being
    [str(e)]; [inr] is the [Exception] re-raised. *)
Definition handle_akshare_exception (e_str operation : string) (symbol : option string)
  : string + string :=
  let error_str := lower e_str in
  if existsb (fun keyword => contains keyword error_str)
             ["connection"; "network"; "timeout"; "remote"; "aborted"; "disconnected"]
  then inr ("Network error " ++ operation ++ symbol_info symbol ++ ": " ++ e_str)%string
  else inl ("Error " ++ operation ++ symbol_info symbol ++ ": " ++ e_str)%string.

(** [validate_market_support]: [inr] is the [AKShareDataError] raised. *)
Definition validate_market_support (symbol operation : string)
  : (string * MarketInfo) + string :=
  let market_info := get_market_info symbol in
  let market := mi_market market_info in
  if negb (MarketIdentifier.is_market_supported symbol "akshare")
  then inr ("Market " ++ market ++ " is not supported by AKShare for " ++ operation)%string
  else inl (market, market_info).


End AKShareCommon.

Module BaoStockCommon.
Import Py.

(** [validate_market_support]: [inr] is the [BaoStockDataError] raised. *)
Definition validate_market_support (symbol operation : string)
  : (string * MarketInfo) + string :=
  let market_info := get_market_info symbol in
  let market := mi_market market_info in
  if negb (MarketIdentifier.is_market_supported symbol "baostock")
  then inr ("Market " ++ market ++ " is not supported by BaoStock for " ++ operation
            ++ " (A-shares only)")%string
  else inl (market, market_info).

Definition format_symbol_for_baostock (symbol market : string) : string :=
  MarketIdentifier.format_symbol_for_vendor symbol "baostock" (Some market).

(** [validate_date_format]: [inr] is the [BaoStockDataError] raised. *)
Definition validate_date_format (date_str : string) : unit + string :=
  if Quality.strptime_ymd date_str then inl tt
  else inr ("Invalid date format: " ++ date_str ++ ". Expected format: YYYY-MM-DD")%string.

Definition handle_baostock_exception (e_str operation : string) (symbol : option string)
  : string + string :=
  let error_str := lower e_str in
  if existsb (fun keyword => contains keyword error_str)
             ["baostock is not installed"; "no module named"; "connection"; "network";
              "timeout"; "remote"; "aborted"; "disconnected"]
  then inr ("BaoStock error " ++ operation ++ AKShareCommon.symbol_info symbol ++ ": " ++ e_str)%string
  else inl ("Error " ++ operation ++ AKShareCommon.symbol_info symbol ++ ": " ++ e_str)%string.

End BaoStockCommon.

(* ------------------------------------------------------------------ *)
(** ** Predicates used in the statements *)

Module Spec.
Import Router.

(** Every exception an adapter raises derives from [Exception], so one of
    the three [except] clauses applies to it. *)
Definition exceptions_only (env : Env) : Prop :=
  forall vendor i cls msg b, env vendor i = Raises (OtherError cls msg b) -> b = true.

Definition registered (table : list (string * Impl)) (vendor : string) : bool :=
  match assoc vendor table with Some _ => true | None => false end.

(** The market layer of [get_vendor] applies to [symbol], with the
    entry's [primary] and [fallback] (each defaulting to ""), at least one
    of them non-empty. *)
Definition market_entry_used (config : Config) (symbol : option string) (p f : string) : Prop :=
  exists s mc, symbol = Some s /\ Py.truthy s = true /\
    assoc (mi_market (get_market_info s)) (market_vendors config) = Some mc /\
    get_or (mc_primary mc) "" = p /\ get_or (mc_fallback mc) "" = f /\
    (Py.truthy p || Py.truthy f) = true.

(** No market entry with a non-empty [primary] or [fallback] applies. *)
Definition no_market_entry_used (config : Config) (symbol : option string) : Prop :=
  forall s mc, symbol = Some s -> Py.truthy s = true ->
    assoc (mi_market (get_market_info s)) (market_vendors config) = Some mc ->
    get_or (mc_primary mc) "" = "" /\ get_or (mc_fallback mc) "" = "".

(** [format_symbol_for_vendor] has no rule of its own for this vendor and
    market: an unknown vendor, a market other than A, HK and US, or
    baostock outside A shares. *)
Definition no_format_rule (vendor market : string) : Prop :=
  Py.in_list vendor ["akshare"; "baostock"; "yfinance"; "alpha_vantage"] = false \/
  Py.in_list market ["A_STOCK"; "HK_STOCK"; "US_STOCK"] = false \/
  (vendor = "baostock" /\ market <> "A_STOCK").

(** The value the [j]-th callable of [vendor] returns, if it returns. *)
Definition returned (env : Env) (vendor : string) (j : nat) : list Value :=
  match env vendor j with Returns v => [v] | Raises _ => [] end.

(** The values the callables of [vendor]'s implementation in [table]
    return, in order; none for a vendor [table] does not register. *)
Definition vendor_values (env : Env) (table : list (string * Impl)) (vendor : string)
  : list Value :=
  match assoc vendor table with
  | Some impl => flat_map (returned env vendor) (seq 0 (length (impl_names impl)))
  | None => []
  end.

End Spec.

(** Concrete configurations and adapter behaviours. *)
Module Scenarios.
Import Router.

Definition empty_config : Config :=
  {| data_vendors := []; tool_vendors := []; market_vendors := [] |}.

(** A [market_vendors] entry for US stocks with neither key set. *)
Definition empty_us_entry : Config :=
  {| data_vendors := []; tool_vendors := [];
     market_vendors := [("US_STOCK", {| mc_primary := None; mc_fallback := None |})] |}.

(** The three market entries of [default_config.py] for A and US stocks. *)
Definition market_config : Config :=
  {| data_vendors := [("core_stock_apis", "akshare")];
     tool_vendors := [("get_stock_data", "akshare")];
     market_vendors :=
       [("A_STOCK", {| mc_primary := Some "akshare"; mc_fallback := Some "baostock,yfinance" |});
        ("US_STOCK", {| mc_primary := Some "akshare";
                        mc_fallback := Some "yfinance,alpha_vantage" |})] |}.

(** Every adapter raises an ordinary exception (one whose message holds
    none of the network keywords), e.g. an outage of every data source. *)
Definition all_fail : Env :=
  fun vendor _ => Raises (OtherError "DataError" ("Market not supported by " ++ vendor) true).

(** akshare times out, openai fails, every other adapter returns its text. *)
Definition mixed_env : Env :=
  fun vendor _ =>
    if String.eqb vendor "akshare" then Raises (NetworkError TimeoutError "timed out")
    else if String.eqb vendor "openai" then Raises (OtherError "ValueError" "bad key" true)
    else Returns (VStr ("news from " ++ vendor)).

(** An indicator report: one line "date: value" per value, for
    2024-01-01 onwards. *)
Definition dated_report (vs : list string) : string :=
  Py.join newline
    (map (fun dv => (fst dv ++ ": " ++ snd dv)%string)
         (combine ["2024-01-01"; "2024-01-02"; "2024-01-03"; "2024-01-04"; "2024-01-05";
                   "2024-01-06"; "2024-01-07"; "2024-01-08"; "2024-01-09"; "2024-01-10"] vs)).

(** Ten date lines, two numeric and eight marked holiday. *)
Definition holiday_report : string :=
  dated_report ["101.25"; "102.5"; "holiday"; "holiday"; "holiday"; "holiday";
                "holiday"; "holiday"; "holiday"; "holiday"].

(** Ten date lines, four numeric. *)
Definition forty_report : string :=
  dated_report ["101.25"; "102.5"; "99.75"; "100"; "holiday"; "holiday";
                "Not a trading day"; "N/A"; "weekend"; "holiday"].

(** akshare's connection drops; yfinance and alpha_vantage answer. *)
Definition network_then_ok : Env :=
  fun vendor _ =>
    if String.eqb vendor "akshare"
    then Raises (NetworkError ConnectionResetError "Connection reset by peer")
    else Returns (VStr ("OHLCV from " ++ vendor)).

(** Every adapter answers with a text naming its vendor. *)
Definition all_answer : Env := fun vendor _ => Returns (VStr ("news from " ++ vendor)).

(** Every indicator adapter returns the holiday-only report. *)
Definition holiday_env : Env := fun _ _ => Returns (VStr holiday_report).

(** [tool_vendors] naming baostock for [get_stock_data]. *)
Definition baostock_config : Config :=
  {| data_vendors := []; tool_vendors := [("get_stock_data", "baostock")];
     market_vendors := [] |}.

(** The checks [baostock_stock.get_stock_data(symbol, start_date,
    end_date)] makes before it queries BaoStock (the library being
    installed): the two date checks and [validate_market_support], whose
    exception the [except Exception] clause hands to
    [handle_baostock_exception].  [None] when they all pass and the query
    would run. *)
Definition baostock_get_stock_data_checks (symbol start_date end_date : string)
  : option Behaviour :=
  let handled msg :=
    match BaoStockCommon.handle_baostock_exception msg "retrieving stock data" (Some symbol) with
    | inl s => Returns (VStr s)
    | inr m => Raises (OtherError "Exception" m true)
    end in
  match BaoStockCommon.validate_date_format start_date with
  | inr msg => Some (handled msg)
  | inl _ =>
      match BaoStockCommon.validate_date_format end_date with
      | inr msg => Some (handled msg)
      | inl _ =>
          match BaoStockCommon.validate_market_support symbol "stock data retrieval" with
          | inr msg => Some (handled msg)
          | inl _ => None
          end
      end
  end.

(** [env] with baostock's [get_stock_data] adapter behaving as the source
    does for this call when its checks fail. *)
Definition with_baostock_stock_checks (env : Env) (symbol start_date end_date : string) : Env :=
  fun vendor i =>
    if String.eqb vendor "baostock" then
      match baostock_get_stock_data_checks symbol start_date end_date with
      | Some b => b
      | None => env vendor i
      end
    else env vendor i.

End Scenarios.


(* ================================================================== *)
(** Characters and code prefixes used to state the properties of
    [market_utils.py]. *)
Module Shapes.
Import Py.

(** Characters that [str.upper] leaves alone and [str.strip] never removes. *)
Definition plain (c : ascii) : bool := negb (is_lower c) && negb (is_space c).


End Shapes.

(** * Properties *)

Module RouterFacts.
Import Py Router Spec.

Ltac case_string_eqs :=
  repeat match goal with
         | H : context [String.eqb ?a ?b] |- _ =>
             destruct (String.eqb_spec a b); subst; simpl in H
         end.

Lemma category_has_table (method category : string) :
  get_category_for_method method = Some category ->
  exists table, assoc method VENDOR_METHODS = Some table.
Proof.
  unfold get_category_for_method; simpl; unfold in_list; simpl.
  intro H; case_string_eqs; try discriminate; eexists; reflexivity.
Qed.

Lemma run_vendor_methods_no_exc (env : Env) (vendor : string) :
  exceptions_only env ->
  forall impls i, snd (run_vendor_methods env vendor i impls) = None.
Proof.
  intros Henv impls; induction impls as [|impl rest IH]; intro i; simpl; [reflexivity|].
  specialize (IH (S i)).
  destruct (env vendor i) as [v|ex] eqn:E.
  - destruct (run_vendor_methods env vendor (S i) rest) as [[vs evs] e]; exact IH.
  - destruct ex as [m|c m|c m b]; simpl.
    + destruct (run_vendor_methods env vendor (S i) rest) as [[vs evs] e]; exact IH.
    + destruct (run_vendor_methods env vendor (S i) rest) as [[vs evs] e]; exact IH.
    + rewrite (Henv _ _ _ _ _ E).
      destruct (run_vendor_methods env vendor (S i) rest) as [[vs evs] e].
      match goal with |- context [if ?c then _ else _] => destruct c end; exact IH.
Qed.

Lemma run_loop_no_exc (env : Env) method table primary :
  exceptions_only env ->
  forall plan st, snd (run_loop env method table primary plan st) = None.
Proof.
  intros Henv plan; induction plan as [|vendor rest IH]; intro st; simpl; [reflexivity|].
  destruct (assoc vendor table) as [impl|]; [|apply IH].
  pose proof (run_vendor_methods_no_exc env vendor Henv (impl_names impl) 0) as Hn.
  destruct (run_vendor_methods env vendor 0 (impl_names impl)) as [[vr evs] e].
  simpl in Hn; subst e.
  destruct vr as [|v vs]; [apply IH|].
  destruct (should_fallback_due_to_invalid_data _ _); [apply IH|].
  destruct (stop_after_first_success _ _); [reflexivity|apply IH].
Qed.

(** [route_to_vendor] on a method of the catalog runs the vendor loop over
    [fallback_plan] and turns its results into the outcome. *)
Lemma route_to_vendor_registered config env method args kwargs category :
  get_category_for_method method = Some category ->
  exceptions_only env ->
  exists table,
    assoc method VENDOR_METHODS = Some table /\
    let primary := map strip (split ","%char
                      (get_vendor config category (Some method) (extract_symbol args kwargs))) in
    let st := fst (run_loop env method table primary
                      (fallback_plan config method args kwargs) init_state) in
    route_to_vendor config env method args kwargs =
      (match results st with
       | [] => RuntimeError ("All vendor implementations failed for method '"
                             ++ method ++ "'")%string
       | rs => Ok (final_result rs)
       end, st).
Proof.
  intros Hcat Henv.
  destruct (category_has_table method category Hcat) as [table Ht].
  exists table; split; [exact Ht|].
  unfold route_to_vendor, fallback_plan; rewrite Hcat, Ht; simpl.
  match goal with
  | |- context [run_loop env method table ?p ?pl init_state] =>
      pose proof (run_loop_no_exc env method table p Henv pl init_state) as Hn;
      destruct (run_loop env method table p pl init_state) as [st e]
  end.
  simpl in Hn; subst e; simpl.
  destruct (results st); reflexivity.
Qed.

Lemma run_loop_results_ext env method table primary :
  forall plan st, exists l,
    results (fst (run_loop env method table primary plan st)) = results st ++ l.
Proof.
  intro plan; induction plan as [|vendor rest IH]; intro st; simpl.
  - exists []; rewrite app_nil_r; reflexivity.
  - destruct (assoc vendor table) as [impl|]; [|apply IH].
    destruct (run_vendor_methods env vendor 0 (impl_names impl)) as [[vr evs] e].
    destruct e; [exists []; rewrite app_nil_r; reflexivity|].
    assert (Hkeep : forall st', results st' = results st -> exists l,
              results (fst (run_loop env method table primary rest st')) = results st ++ l).
    { intros st' E; destruct (IH st') as [l Hl]; exists l; rewrite Hl, E; reflexivity. }
    destruct vr as [|v vs]; [apply Hkeep; reflexivity|].
    destruct (should_fallback_due_to_invalid_data _ _); [apply Hkeep; reflexivity|].
    destruct (stop_after_first_success _ _).
    + exists (v :: vs); reflexivity.
    + destruct (IH (accept vendor (v :: vs) (add_calls evs (count_attempt vendor st))))
        as [l Hl].
      exists ((v :: vs) ++ l); rewrite Hl; simpl; rewrite <- app_assoc; reflexivity.
Qed.

Lemma app_eq_self_nil {A : Type} (xs ys : list A) : xs ++ ys = xs -> ys = [].
Proof.
  intro H; apply (f_equal (@length A)) in H; rewrite length_app in H.
  destruct ys; [reflexivity | simpl in H; lia].
Qed.

(** The vendors attempted form a prefix of the registered vendors of the
    plan, in plan order. *)
Lemma run_loop_attempted_prefix env method table primary :
  forall plan st, exists l rest,
    attempted (fst (run_loop env method table primary plan st)) = attempted st ++ l /\
    l ++ rest = filter (registered table) plan.
Proof.
  intro plan; induction plan as [|vendor plan' IH]; intro st; simpl.
  - exists [], []; rewrite app_nil_r; split; reflexivity.
  - unfold registered at 1.
    destruct (assoc vendor table) as [impl|]; [|apply IH].
    destruct (run_vendor_methods env vendor 0 (impl_names impl)) as [[vr evs] e].
    destruct e.
    { exists [vendor], (filter (registered table) plan'); split; reflexivity. }
    assert (Hstep : forall st', attempted st' = attempted st ++ [vendor] ->
              exists l rest,
                attempted (fst (run_loop env method table primary plan' st')) =
                  attempted st ++ l /\ l ++ rest = vendor :: filter (registered table) plan').
    { intros st' Hst'. destruct (IH st') as (l & r & H1 & H2).
      exists (vendor :: l), r; split.
      - rewrite H1, Hst', <- app_assoc; reflexivity.
      - simpl; rewrite H2; reflexivity. }
    destruct vr as [|v vs]; [apply Hstep; reflexivity|].
    destruct (should_fallback_due_to_invalid_data _ _); [apply Hstep; reflexivity|].
    destruct (stop_after_first_success _ _); [|apply Hstep; reflexivity].
    exists [vendor], (filter (registered table) plan'); split; reflexivity.
Qed.

(** When no value is accepted (and nothing escapes), every registered
    vendor of the plan is attempted, in plan order. *)
Lemma run_loop_no_accept env method table primary :
  exceptions_only env ->
  forall plan st,
    results (fst (run_loop env method table primary plan st)) = results st ->
    attempted (fst (run_loop env method table primary plan st)) =
      attempted st ++ filter (registered table) plan.
Proof.
  intros Henv plan; induction plan as [|vendor rest IH]; intros st Hres; simpl in *.
  - rewrite app_nil_r; reflexivity.
  - unfold registered at 1.
    destruct (assoc vendor table) as [impl|]; [|apply IH; exact Hres].
    pose proof (run_vendor_methods_no_exc env vendor Henv (impl_names impl) 0) as Hn.
    destruct (run_vendor_methods env vendor 0 (impl_names impl)) as [[vr evs] e].
    simpl in Hn; subst e.
    destruct vr as [|v vs].
    + rewrite IH by exact Hres; simpl; rewrite <- app_assoc; reflexivity.
    + destruct (should_fallback_due_to_invalid_data _ _).
      * rewrite IH by exact Hres; simpl; rewrite <- app_assoc; reflexivity.
      * exfalso.
        destruct (stop_after_first_success _ _).
        -- simpl in Hres. apply app_eq_self_nil in Hres; discriminate.
        -- destruct (run_loop_results_ext env method table primary rest
                       (accept vendor (v :: vs) (add_calls evs (count_attempt vendor st))))
             as [l Hl].
           rewrite Hl in Hres; simpl in Hres; rewrite <- app_assoc in Hres.
           apply app_eq_self_nil in Hres; discriminate.
Qed.

Lemma run_vendor_methods_all_raise (env : Env) (vendor : string) :
  (forall i, exists e, env vendor i = Raises e /\ classify_exception e <> None) ->
  forall impls i,
    let '(vs, evs, e) := run_vendor_methods env vendor i impls in
    vs = [] /\ e = None /\ Forall (fun ev => fst (fst ev) = vendor) evs.
Proof.
  intros Hall impls; induction impls as [|impl rest IH]; intro i; simpl.
  - repeat split; constructor.
  - destruct (Hall i) as (e & He & Hc); rewrite He.
    destruct (classify_exception e) as [k|]; [|contradiction].
    specialize (IH (S i)).
    destruct (run_vendor_methods env vendor (S i) rest) as [[vs evs] e'].
    destruct IH as (-> & -> & Hf); repeat split; constructor; [reflexivity | exact Hf].
Qed.

(** The state [route_to_vendor] returns for a method of the catalog is
    the final state of the vendor loop, whatever the adapters do. *)
Lemma route_to_vendor_state config env method args kwargs category :
  get_category_for_method method = Some category ->
  exists table,
    assoc method VENDOR_METHODS = Some table /\
    snd (route_to_vendor config env method args kwargs) =
      fst (run_loop env method table
             (map strip (split ","%char
                (get_vendor config category (Some method) (extract_symbol args kwargs))))
             (fallback_plan config method args kwargs) init_state).
Proof.
  intro Hcat.
  destruct (category_has_table method category Hcat) as [table Ht].
  exists table; split; [exact Ht|].
  unfold route_to_vendor, fallback_plan; rewrite Hcat, Ht; cbv zeta.
  match goal with
  | |- context [run_loop env method table ?p ?pl init_state] =>
      destruct (run_loop env method table p pl init_state) as [st e]
  end.
  destruct e; [reflexivity|]; destruct (results st); reflexivity.
Qed.

Lemma run_loop_calls_ext env method table primary :
  forall plan st, exists l,
    calls (fst (run_loop env method table primary plan st)) = calls st ++ l.
Proof.
  intro plan; induction plan as [|vendor rest IH]; intro st; simpl.
  - exists []; rewrite app_nil_r; reflexivity.
  - destruct (assoc vendor table) as [impl|]; [|apply IH].
    destruct (run_vendor_methods env vendor 0 (impl_names impl)) as [[vr evs] e].
    assert (Hkeep : forall st', calls st' = calls st ++ evs -> exists l,
              calls (fst (run_loop env method table primary rest st')) = calls st ++ l).
    { intros st' E; destruct (IH st') as [l Hl]; exists (evs ++ l).
      rewrite Hl, E, app_assoc; reflexivity. }
    destruct e; [exists evs; reflexivity|].
    destruct vr as [|v vs]; [apply Hkeep; reflexivity|].
    destruct (should_fallback_due_to_invalid_data _ _); [apply Hkeep; reflexivity|].
    destruct (stop_after_first_success _ _); [exists evs; reflexivity | apply Hkeep; reflexivity].
Qed.

(** The first vendor of the plan, when registered with a single callable,
    is attempted first and its callable is invoked, whatever the
    adapters do. *)
Lemma run_loop_first_attempted env method table primary vendor rest st impl n :
  assoc vendor table = Some impl -> impl_names impl = [n] ->
  exists l k,
    attempted (fst (run_loop env method table primary (vendor :: rest) st)) =
      attempted st ++ vendor :: l /\
    In (vendor, n, k) (calls (fst (run_loop env method table primary (vendor :: rest) st))).
Proof.
  intros Ha Hn; simpl; rewrite Ha, Hn.
  assert (Hev : exists k, In (vendor, n, k)
                  (snd (fst (run_vendor_methods env vendor 0 [n])))).
  { simpl; destruct (env vendor 0) as [v|ex]; [eexists; left; reflexivity|].
    destruct (classify_exception ex) as [k|]; eexists; left; reflexivity. }
  destruct Hev as [k Hk].
  destruct (run_vendor_methods env vendor 0 [n]) as [[vr evs] e]; simpl in Hk.
  assert (Hcont : forall st', attempted st' = attempted st ++ [vendor] ->
            calls st' = calls st ++ evs ->
            exists l k, attempted (fst (run_loop env method table primary rest st')) =
                          attempted st ++ vendor :: l /\
                        In (vendor, n, k) (calls (fst (run_loop env method table primary rest st')))).
  { intros st' Ha' Hc'.
    destruct (run_loop_attempted_prefix env method table primary rest st') as (l & r & H1 & _).
    destruct (run_loop_calls_ext env method table primary rest st') as [l' Hl'].
    exists l, k; split.
    - rewrite H1, Ha', <- app_assoc; reflexivity.
    - rewrite Hl', Hc'; apply in_or_app; left; apply in_or_app; right; exact Hk. }
  assert (Hnow : exists l k, attempted (add_calls evs (count_attempt vendor st)) =
                               attempted st ++ vendor :: l /\
                             In (vendor, n, k) (calls (add_calls evs (count_attempt vendor st)))).
  { exists [], k; split; [reflexivity | simpl; apply in_or_app; right; exact Hk]. }
  destruct e; [exact Hnow|].
  destruct vr as [|v vs]; [apply Hcont; reflexivity|].
  destruct (should_fallback_due_to_invalid_data _ _); [apply Hcont; reflexivity|].
  destruct (stop_after_first_success _ _); [exact Hnow | apply Hcont; reflexivity].
Qed.

End RouterFacts.

Module ScenarioFacts.
Import Router Spec Scenarios.

Lemma all_fail_exceptions_only : exceptions_only all_fail.
Proof. intros v i c m b H; unfold all_fail in H; inversion H; reflexivity. Defined.

Lemma mixed_env_exceptions_only : exceptions_only mixed_env.
Proof.
  intros v i c m b H; unfold mixed_env in H.
  destruct (String.eqb v "akshare"); [discriminate|].
  destruct (String.eqb v "openai"); [inversion H; reflexivity|discriminate].
Defined.

End ScenarioFacts.

Module Claims.
Import Py Router Spec RouterFacts Scenarios ScenarioFacts.

Example identify_examples :
  map MarketIdentifier.identify_market ["000001"; "600000"; "0700.HK"; "0700"; " aapl ";
                                       "BRK.B"; "106.TTE"; "AAPL123"]
  = ["A_STOCK"; "A_STOCK"; "HK_STOCK"; "HK_STOCK"; "US_STOCK"; "US_STOCK"; "US_STOCK";
     "UNKNOWN"].
Proof. reflexivity. Qed.

Example format_examples :
  [MarketIdentifier.format_symbol_for_vendor "0700.hk" "akshare" None;
   MarketIdentifier.format_symbol_for_vendor "000001" "baostock" None;
   MarketIdentifier.format_symbol_for_vendor "600000" "yfinance" None;
   MarketIdentifier.format_symbol_for_vendor "700" "yfinance" (Some "HK_STOCK")]
  = ["00700"; "sz.000001"; "600000.SS"; "0700.HK"].
Proof. reflexivity. Qed.



(** C2: for a method of the catalog, whatever the adapters return or raise
    (any exception deriving from [Exception], classified as rate limit,
    network or other), no adapter exception reaches the caller, no
    [ValueError] is raised, and the call raises (the terminal
    [RuntimeError]) exactly when no value was accepted; otherwise it
    returns the aggregated accepted values. *)
Theorem route_never_propagates_adapter_errors (config : Config) (env : Env) (method : string)
  (args : list string) (kwargs : list (string * string)) (category : string)
  (Hcat : get_category_for_method method = Some category)
  (Henv : exceptions_only env) :
  let o := fst (route_to_vendor config env method args kwargs) in
  let st := snd (route_to_vendor config env method args kwargs) in
  (forall e, o <> Propagated e) /\
  (forall msg, o <> ValueError msg) /\
  ((exists msg, o = RuntimeError msg) <-> results st = []) /\
  (results st <> [] -> o = Ok (final_result (results st))).
Proof.
  destruct (route_to_vendor_registered config env method args kwargs category Hcat Henv)
    as (table & _ & Heq).
  simpl; rewrite Heq; simpl.
  destruct (results _) as [|r rs]; simpl.
  - repeat split; try discriminate; [eexists; reflexivity | intro H; contradiction].
  - repeat split; try discriminate;
      try (intros [msg H]; discriminate); intros _; reflexivity.
Qed.

Lemma route_never_propagates_adapter_errors_witness :
  get_category_for_method "get_news" = Some "news_data" /\ exceptions_only mixed_env /\
  let o := fst (route_to_vendor empty_config mixed_env "get_news" ["AAPL"] []) in
  let st := snd (route_to_vendor empty_config mixed_env "get_news" ["AAPL"] []) in
  (forall e, o <> Propagated e) /\
  (forall msg, o <> ValueError msg) /\
  ((exists msg, o = RuntimeError msg) <-> results st = []) /\
  (results st <> [] -> o = Ok (final_result (results st))).
Proof.
  split; [reflexivity|]. split; [exact mixed_env_exceptions_only|].
  exact (route_never_propagates_adapter_errors empty_config mixed_env "get_news" ["AAPL"] []
           "news_data" eq_refl mixed_env_exceptions_only).
Defined.

(** C7 (counterexample): the terminal failure does not carry the number
    of attempts: a call with no attempt and a call with five attempts
    raise the same exception. *)
Lemma exhausted_error_omits_attempt_count :
  fst (route_to_vendor empty_us_entry all_fail "get_stock_data" ["AAPL"] []) =
    fst (route_to_vendor empty_config all_fail "get_stock_data" ["AAPL"] []) /\
  vendor_attempt_count (snd (route_to_vendor empty_us_entry all_fail "get_stock_data" ["AAPL"] [])) = 0 /\
  vendor_attempt_count (snd (route_to_vendor empty_config all_fail "get_stock_data" ["AAPL"] [])) = 5.
Proof. vm_compute; repeat split; reflexivity. Qed.

(** C7 (amended): when no value is accepted, the call raises
    [RuntimeError("All vendor implementations failed for method '<method>'")]:
    the message names the method, and nothing else. *)
Theorem exhausted_error_names_method (config : Config) (env : Env) (method : string)
  (args : list string) (kwargs : list (string * string)) (category : string)
  (Hcat : get_category_for_method method = Some category)
  (Henv : exceptions_only env)
  (Hnone : results (snd (route_to_vendor config env method args kwargs)) = []) :
  fst (route_to_vendor config env method args kwargs) =
    RuntimeError ("All vendor implementations failed for method '" ++ method ++ "'")%string.
Proof.
  destruct (route_to_vendor_registered config env method args kwargs category Hcat Henv)
    as (table & _ & Heq).
  rewrite Heq in Hnone |- *; simpl in *; rewrite Hnone; reflexivity.
Qed.

Lemma exhausted_error_names_method_witness :
  fst (route_to_vendor empty_config all_fail "get_indicators" ["AAPL"] []) =
    RuntimeError "All vendor implementations failed for method 'get_indicators'".
Proof.
  apply (exhausted_error_names_method empty_config all_fail "get_indicators" ["AAPL"] []
           "technical_indicators" eq_refl all_fail_exceptions_only).
  vm_compute; reflexivity.
Defined.

(** C10: a method listed in no category of [TOOLS_CATEGORIES] makes
    [route_to_vendor] raise [ValueError] before any vendor is attempted. *)
Theorem unknown_method_value_error (config : Config) (env : Env) (method : string)
  (args : list string) (kwargs : list (string * string))
  (Hunknown : get_category_for_method method = None) :
  fst (route_to_vendor config env method args kwargs) =
    ValueError ("Method '" ++ method ++ "' not found in any category")%string /\
  calls (snd (route_to_vendor config env method args kwargs)) = [] /\
  vendor_attempt_count (snd (route_to_vendor config env method args kwargs)) = 0.
Proof. unfold route_to_vendor; rewrite Hunknown; repeat split. Qed.

Lemma unknown_method_value_error_witness :
  fst (route_to_vendor market_config all_fail "get_quotes" ["AAPL"] []) =
    ValueError "Method 'get_quotes' not found in any category" /\
  calls (snd (route_to_vendor market_config all_fail "get_quotes" ["AAPL"] [])) = [] /\
  vendor_attempt_count (snd (route_to_vendor market_config all_fail "get_quotes" ["AAPL"] [])) = 0.
Proof.
  apply (unknown_method_value_error market_config all_fail "get_quotes" ["AAPL"] []).
  reflexivity.
Defined.

(** C1 (code defect): a [market_vendors] entry for the symbol's market
    whose [primary] and [fallback] are both unset is skipped by
    [get_vendor], which falls through to the category layer ("default"),
    but [route_to_vendor] still treats the call as market-specific and adds
    no catalog vendor: the plan is ["default"] and no vendor is attempted,
    whereas without the entry the same category-level resolution gets the
    whole catalog appended. *)
Lemma empty_market_entry_drops_safety_net :
  market_layer empty_us_entry (Some "AAPL") = None /\
  assoc "get_stock_data" (tool_vendors empty_us_entry) = None /\
  get_vendor empty_us_entry "core_stock_apis" (Some "get_stock_data") (Some "AAPL") = "default" /\
  fallback_plan empty_us_entry "get_stock_data" ["AAPL"] [] = ["default"] /\
  fallback_plan empty_config "get_stock_data" ["AAPL"] [] =
    ["default"; "alpha_vantage"; "yfinance"; "akshare"; "baostock"; "local"] /\
  vendor_attempt_count (snd (route_to_vendor empty_us_entry all_fail "get_stock_data" ["AAPL"] [])) = 0.
Proof. vm_compute; repeat split; reflexivity. Qed.

(** C3 (counterexample): the market entry of the symbol's market exists,
    but with both parts empty [get_vendor] does not return their
    concatenation (the empty string); it falls through to "default". *)
Lemma get_vendor_empty_market_entry_falls_through :
  assoc (mi_market (get_market_info "AAPL")) (market_vendors empty_us_entry) <> None /\
  get_vendor empty_us_entry "core_stock_apis" (Some "get_stock_data") (Some "AAPL") = "default" /\
  get_vendor empty_us_entry "core_stock_apis" (Some "get_stock_data") (Some "AAPL") <>
    String.concat "," (filter truthy [""; ""]).
Proof. vm_compute; repeat split; discriminate. Qed.

Lemma no_market_entry_layer (config : Config) (symbol : option string) :
  no_market_entry_used config symbol -> market_layer config symbol = None.
Proof.
  intro H; destruct symbol as [s|]; [|reflexivity].
  unfold market_layer; cbv beta iota.
  destruct (truthy s) eqn:Hs; [|reflexivity].
  destruct (assoc (mi_market (get_market_info s)) (market_vendors config)) as [mc|] eqn:Ha;
    [|reflexivity].
  destruct (H s mc eq_refl Hs Ha) as [-> ->]; reflexivity.
Qed.

(** C3 (amended): for a non-empty method name, first match wins: a market
    entry of the symbol's market with a non-empty [primary] or [fallback]
    gives them joined by "," (an empty part skipped), and the call is then
    market-specific; otherwise (no symbol, no entry, or an entry with both
    parts empty) [tool_vendors[method]] if present, else
    [data_vendors[category]], else "default". *)
Theorem get_vendor_layers (config : Config) (category method : string)
  (symbol : option string) (Hm : truthy method = true) :
  (forall p f, market_entry_used config symbol p f ->
     get_vendor config category (Some method) symbol = String.concat "," (filter truthy [p; f]) /\
     market_specific config symbol = true) /\
  (no_market_entry_used config symbol ->
     get_vendor config category (Some method) symbol =
       match assoc method (tool_vendors config) with
       | Some r => r
       | None => get_or (assoc category (data_vendors config)) "default"
       end).
Proof.
  split.
  - intros p f (s & mc & -> & Hs & Ha & Hp & Hf & Hor).
    unfold get_vendor, market_layer, market_specific; cbv beta iota.
    rewrite Hs, Ha, Hp, Hf; cbv beta iota.
    split; [|reflexivity].
    destruct (truthy p) eqn:Ep, (truthy f) eqn:Ef; simpl; try rewrite Ep; try rewrite Ef;
      simpl; try reflexivity; discriminate.
  - intro H; unfold get_vendor; rewrite (no_market_entry_layer config symbol H), Hm;
      reflexivity.
Qed.

Lemma get_vendor_layers_witness :
  truthy "get_stock_data" = true /\
  (forall p f, market_entry_used market_config (Some "600000") p f ->
     get_vendor market_config "core_stock_apis" (Some "get_stock_data") (Some "600000") =
       String.concat "," (filter truthy [p; f]) /\
     market_specific market_config (Some "600000") = true) /\
  (no_market_entry_used market_config (Some "600000") ->
     get_vendor market_config "core_stock_apis" (Some "get_stock_data") (Some "600000") =
       match assoc "get_stock_data" (tool_vendors market_config) with
       | Some r => r
       | None => get_or (assoc "core_stock_apis" (data_vendors market_config)) "default"
       end).
Proof.
  split; [reflexivity|].
  apply (get_vendor_layers market_config "core_stock_apis" "get_stock_data" (Some "600000")).
  reflexivity.
Defined.

(** C8 (counterexample): for the US symbol AAPL, with no configuration,
    baostock (which serves A shares only) is still invoked for
    [get_stock_data]. *)
(** C8 (counterexample): baostock serves A shares only, yet for the US
    symbol AAPL with [tool_vendors] naming baostock, [get_stock_data]
    attempts baostock first and invokes its adapter, whatever the adapters
    do.  With baostock's adapter behaving as its source does for AAPL
    ([validate_market_support] raises, [handle_baostock_exception] turns
    the message into an error string), that string is accepted and
    returned as the result, and no other vendor is tried. *)
Lemma route_attempts_unsupported_market :
  MarketIdentifier.is_market_supported "AAPL" "baostock" = false /\
  (forall env, exists l k,
     attempted (snd (route_to_vendor baostock_config env "get_stock_data"
                       ["AAPL"; "2024-01-02"; "2024-01-31"] [])) = "baostock" :: l /\
     In ("baostock", "get_stock_data", k)
        (calls (snd (route_to_vendor baostock_config env "get_stock_data"
                       ["AAPL"; "2024-01-02"; "2024-01-31"] [])))) /\
  (forall env,
     let r := route_to_vendor baostock_config
                (with_baostock_stock_checks env "AAPL" "2024-01-02" "2024-01-31")
                "get_stock_data" ["AAPL"; "2024-01-02"; "2024-01-31"] [] in
     fst r = Ok (VStr ("Error retrieving stock data for AAPL: Market US_STOCK is not "
                       ++ "supported by BaoStock for stock data retrieval (A-shares only)")) /\
     successful_vendor (snd r) = Some "baostock" /\
     attempted (snd r) = ["baostock"]).
Proof.
  split; [reflexivity | split].
  - intro env.
    assert (Hcat : get_category_for_method "get_stock_data" = Some "core_stock_apis")
      by reflexivity.
    destruct (route_to_vendor_state baostock_config env "get_stock_data"
                ["AAPL"; "2024-01-02"; "2024-01-31"] [] "core_stock_apis" Hcat)
      as [table [Ht Hst]].
    vm_compute in Ht; injection Ht as <-.
    rewrite Hst.
    replace (fallback_plan baostock_config "get_stock_data" ["AAPL"; "2024-01-02"; "2024-01-31"] [])
      with ["baostock"; "alpha_vantage"; "yfinance"; "akshare"; "local"]
      by (vm_compute; reflexivity).
    match goal with
    | |- context [run_loop env _ ?t ?p _ init_state] =>
        destruct (run_loop_first_attempted env "get_stock_data" t p "baostock"
                    ["alpha_vantage"; "yfinance"; "akshare"; "local"] init_state
                    (Single "get_stock_data") "get_stock_data" eq_refl eq_refl)
          as (l & k & H1 & H2)
    end.
    exists l, k; split; [exact H1 | exact H2].
  - intro env; vm_compute; split; [reflexivity | split; reflexivity].
Qed.

(** C8 (amended): the executor skips a vendor only when it is not
    registered for the method; market support is not consulted.  The
    vendors attempted are a prefix of the registered vendors of the
    fallback plan, in plan order, and all of them when no value is
    accepted, whatever the symbol's market. *)
Theorem route_skips_only_unregistered (config : Config) (env : Env) (method : string)
  (args : list string) (kwargs : list (string * string)) (category : string)
  (table : list (string * Impl))
  (Hcat : get_category_for_method method = Some category)
  (Ht : assoc method VENDOR_METHODS = Some table)
  (Henv : exceptions_only env) :
  let st := snd (route_to_vendor config env method args kwargs) in
  (exists rest, attempted st ++ rest =
                filter (registered table) (fallback_plan config method args kwargs)) /\
  (results st = [] ->
   attempted st = filter (registered table) (fallback_plan config method args kwargs)).
Proof.
  destruct (route_to_vendor_registered config env method args kwargs category Hcat Henv)
    as (table' & Ht' & Heq).
  rewrite Ht in Ht'; injection Ht' as <-.
  simpl; rewrite Heq; simpl; split.
  - match goal with
    | |- context [run_loop env method table ?p ?pl init_state] =>
        destruct (run_loop_attempted_prefix env method table p pl init_state)
          as (l & r & H1 & H2)
    end.
    exists r; rewrite H1; exact H2.
  - intro Hnone.
    match goal with
    | |- context [run_loop env method table ?p ?pl init_state] =>
        exact (run_loop_no_accept env method table p Henv pl init_state Hnone)
    end.
Qed.

Lemma route_skips_only_unregistered_witness :
  let st := snd (route_to_vendor empty_config all_fail "get_stock_data" ["AAPL"] []) in
  (exists rest, attempted st ++ rest =
     filter (registered (match assoc "get_stock_data" VENDOR_METHODS with
                         | Some t => t | None => [] end))
            (fallback_plan empty_config "get_stock_data" ["AAPL"] [])) /\
  (results st = [] ->
   attempted st = filter (registered (match assoc "get_stock_data" VENDOR_METHODS with
                                      | Some t => t | None => [] end))
                         (fallback_plan empty_config "get_stock_data" ["AAPL"] [])).
Proof.
  exact (route_skips_only_unregistered empty_config all_fail "get_stock_data" ["AAPL"] []
           "core_stock_apis" _ eq_refl eq_refl all_fail_exceptions_only).
Defined.

(** C4: vendors are attempted in plan order (a prefix of the registered
    vendors of the plan); and when only one primary vendor is configured or
    the method is [get_stock_data] / [get_indicators], for a plan [A; B; C]
    of registered vendors where every adapter of A raises a
    network-classified error and B returns a value passing the quality
    gate, B is the successful vendor, its value the one accepted, and C is
    never attempted. *)
Theorem fallback_stops_at_first_accepted (env : Env) (method : string)
  (table : list (string * Impl)) (primary : list string) (A B C : string)
  (iA iC : Impl) (nB : string) (v : Value) (st : State)
  (HA : assoc A table = Some iA)
  (HAfail : forall i, exists e, env A i = Raises e /\ classify_exception e = Some CallNetwork)
  (HB : assoc B table = Some (Single nB))
  (HBok : env B 0 = Returns v)
  (Hgate : should_fallback_due_to_invalid_data method [v] = false)
  (HC : assoc C table = Some iC)
  (Hstop : stop_after_first_success method primary = true) :
  (forall plan st0, exists l rest,
     attempted (fst (run_loop env method table primary plan st0)) = attempted st0 ++ l /\
     l ++ rest = filter (registered table) plan) /\
  let st' := fst (run_loop env method table primary [A; B; C] st) in
  snd (run_loop env method table primary [A; B; C] st) = None /\
  successful_vendor st' = Some B /\
  attempted st' = attempted st ++ [A; B] /\
  results st' = results st ++ [v] /\
  exists evsA, calls st' = calls st ++ evsA ++ [(B, nB, CallSuccess)] /\
               Forall (fun ev => fst (fst ev) = A) evsA.
Proof.
  split; [apply run_loop_attempted_prefix|].
  assert (Hall : forall i, exists e, env A i = Raises e /\ classify_exception e <> None).
  { intro i; destruct (HAfail i) as (e & He & Hc); exists e; rewrite Hc; split;
      [exact He | discriminate]. }
  pose proof (run_vendor_methods_all_raise env A Hall (impl_names iA) 0) as HrA.
  simpl run_loop; rewrite HA.
  destruct (run_vendor_methods env A 0 (impl_names iA)) as [[vs evs] e].
  destruct HrA as (-> & -> & Hf).
  rewrite HB; simpl impl_names; simpl run_vendor_methods; rewrite HBok.
  rewrite Hgate, Hstop; simpl.
  repeat split; try (rewrite <- app_assoc; reflexivity).
  exists evs; split; [rewrite <- !app_assoc; reflexivity | exact Hf].
Qed.

Lemma fallback_stops_at_first_accepted_witness :
  let table := match assoc "get_stock_data" VENDOR_METHODS with Some t => t | None => [] end in
  (forall plan st0, exists l rest,
     attempted (fst (run_loop network_then_ok "get_stock_data" table ["akshare"] plan st0)) =
       attempted st0 ++ l /\ l ++ rest = filter (registered table) plan) /\
  let st' := fst (run_loop network_then_ok "get_stock_data" table ["akshare"]
                    ["akshare"; "yfinance"; "alpha_vantage"] init_state) in
  snd (run_loop network_then_ok "get_stock_data" table ["akshare"]
         ["akshare"; "yfinance"; "alpha_vantage"] init_state) = None /\
  successful_vendor st' = Some "yfinance" /\
  attempted st' = attempted init_state ++ ["akshare"; "yfinance"] /\
  results st' = results init_state ++ [VStr "OHLCV from yfinance"] /\
  exists evsA, calls st' = calls init_state ++ evsA ++
                           [("yfinance", "get_YFin_data_online", CallSuccess)] /\
               Forall (fun ev => fst (fst ev) = "akshare") evsA.
Proof.
  apply (fallback_stops_at_first_accepted network_then_ok "get_stock_data" _ ["akshare"]
           "akshare" "yfinance" "alpha_vantage" (Single "get_stock_data")
           (Single "get_stock") "get_YFin_data_online" (VStr "OHLCV from yfinance")
           init_state); try reflexivity.
  intro i; eexists; split; reflexivity.
Defined.

(** C5: the indicator gate judges a text invalid exactly when it has no
    date line or fewer than 30% of its date lines are valid; ten date lines
    with two numeric values and eight "holiday" are rejected, four valid
    out of ten are accepted; and for [get_indicators] a vendor whose single
    result is rejected is counted as attempted but its value is discarded
    and the loop goes on with the next vendor. *)
Theorem indicator_quality_gate :
  (forall s, Quality._is_indicator_result_invalid s = true <->
             Quality.date_line_count s = 0 \/
             Quality.valid_data_count s * 10 < Quality.date_line_count s * 3) /\
  (Quality.date_line_count holiday_report = 10 /\ Quality.valid_data_count holiday_report = 2 /\
   Quality._is_indicator_result_invalid holiday_report = true) /\
  (Quality.date_line_count forty_report = 10 /\ Quality.valid_data_count forty_report = 4 /\
   Quality._is_indicator_result_invalid forty_report = false) /\
  (forall env table primary vendor name rest st s,
     assoc vendor table = Some (Single name) ->
     env vendor 0 = Returns (VStr s) ->
     Quality._is_indicator_result_invalid s = true ->
     run_loop env "get_indicators" table primary (vendor :: rest) st =
       run_loop env "get_indicators" table primary rest
                (add_calls [(vendor, name, CallSuccess)] (count_attempt vendor st))).
Proof.
  split; [|split; [vm_compute; repeat split; reflexivity|
                   split; [vm_compute; repeat split; reflexivity|]]].
  - intro s; unfold Quality._is_indicator_result_invalid, Quality.ratio_below_030.
    destruct (truthy s) eqn:T; simpl.
    + destruct (Nat.eqb_spec (Quality.date_line_count s) 0) as [E|E].
      * split; [intros _; left; exact E | reflexivity].
      * rewrite Nat.ltb_lt; split; [intro H; right; exact H|].
        intros [H|H]; [contradiction | exact H].
    + unfold truthy in T; apply negb_false_iff, String.eqb_eq in T; subst s.
      split; [intros _; left; reflexivity | reflexivity].
  - intros env table primary vendor name rest st s Ht He Hi.
    simpl run_loop; rewrite Ht; simpl impl_names; simpl run_vendor_methods; rewrite He.
    unfold should_fallback_due_to_invalid_data; simpl py_str; rewrite Hi; reflexivity.
Qed.

Lemma indicator_quality_gate_witness :
  let table := match assoc "get_indicators" VENDOR_METHODS with Some t => t | None => [] end in
  Quality._is_indicator_result_invalid holiday_report = true /\
  run_loop holiday_env "get_indicators" table ["alpha_vantage"] ["alpha_vantage"; "local"]
           init_state =
    run_loop holiday_env "get_indicators" table ["alpha_vantage"] ["local"]
             (add_calls [("alpha_vantage", "get_indicator", CallSuccess)]
                        (count_attempt "alpha_vantage" init_state)).
Proof.
  destruct indicator_quality_gate as (_ & (_ & _ & Hh) & _ & H4).
  split; [exact Hh|].
  apply (H4 holiday_env _ ["alpha_vantage"] "alpha_vantage" "get_indicator" ["local"]
            init_state holiday_report); [reflexivity | reflexivity | vm_compute; reflexivity].
Defined.

(** C6 (counterexample): the fallback returns the upper-cased, stripped
    symbol, not the input: an unknown vendor turns "aapl" into "AAPL". *)
Lemma format_fallback_normalises_symbol :
  MarketIdentifier.format_symbol_for_vendor "aapl" "unknown_vendor" None = "AAPL" /\
  MarketIdentifier.format_symbol_for_vendor "aapl" "unknown_vendor" None <> "aapl".
Proof. split; [reflexivity | discriminate]. Qed.

(** C6 (amended): [format_symbol_for_vendor] is total, and for a vendor and
    market without a rule of their own (unknown vendor, market outside
    A/HK/US such as UNKNOWN, or baostock outside A shares) it returns the
    symbol upper-cased and stripped; hence a symbol already in that form
    comes back unchanged. *)
Theorem format_symbol_fallback (symbol vendor : string) (market : option string)
  (H : no_format_rule vendor
         (match market with None => MarketIdentifier.identify_market symbol | Some m => m end)) :
  MarketIdentifier.format_symbol_for_vendor symbol vendor market = strip (upper symbol) /\
  (strip (upper symbol) = symbol ->
   MarketIdentifier.format_symbol_for_vendor symbol vendor market = symbol).
Proof.
  assert (Hf : MarketIdentifier.format_symbol_for_vendor symbol vendor market =
               strip (upper symbol)).
  { unfold MarketIdentifier.format_symbol_for_vendor; cbv zeta.
    revert H.
    generalize (match market with None => MarketIdentifier.identify_market symbol
                                | Some m => m end) as m.
    generalize (strip (upper symbol)) as u.
    intros u m H.
    destruct H as [H|[H|[Hv Hm]]]; unfold in_list in *; simpl in *;
      repeat match goal with
             | |- context [String.eqb ?a ?b] => destruct (String.eqb_spec a b); subst; simpl in *
             end;
      try reflexivity; try discriminate; try congruence. }
  split; [exact Hf | intro E; rewrite Hf; exact E].
Qed.

Lemma format_symbol_fallback_witness :
  MarketIdentifier.format_symbol_for_vendor " brk.b " "tushare" None = "BRK.B" /\
  (strip (upper " brk.b ") = " brk.b " ->
   MarketIdentifier.format_symbol_for_vendor " brk.b " "tushare" None = " brk.b ").
Proof.
  apply (format_symbol_fallback " brk.b " "tushare" None).
  left; reflexivity.
Defined.

(** C9: one accepted value is returned as it is; two or more are turned
    to text and joined with newlines, in acceptance order; so three vendors
    of an aggregation method (plan and primary list [p1; p2; p3]) that all
    return text give the three texts joined by newlines, in attempt order. *)
Theorem aggregate_results :
  (forall v, final_result [v] = v) /\
  (forall rs, 2 <= length rs -> final_result rs = VStr (join newline (map py_str rs))) /\
  (forall env method table p1 p2 p3 n1 n2 n3 s1 s2 s3,
     assoc p1 table = Some (Single n1) -> assoc p2 table = Some (Single n2) ->
     assoc p3 table = Some (Single n3) ->
     env p1 0 = Returns (VStr s1) -> env p2 0 = Returns (VStr s2) ->
     env p3 0 = Returns (VStr s3) ->
     stop_after_first_success method [p1; p2; p3] = false ->
     let st := fst (run_loop env method table [p1; p2; p3] [p1; p2; p3] init_state) in
     results st = [VStr s1; VStr s2; VStr s3] /\
     final_result (results st) = VStr (s1 ++ newline ++ s2 ++ newline ++ s3)%string).
Proof.
  split; [reflexivity|]. split.
  - intros [|r1 [|r2 rs]] Hl; simpl in Hl; try lia; reflexivity.
  - intros env method table p1 p2 p3 n1 n2 n3 s1 s2 s3 H1 H2 H3 E1 E2 E3 Hstop.
    assert (Hgi : String.eqb method "get_indicators" = false).
    { unfold stop_after_first_success, in_list in Hstop; simpl in Hstop.
      apply orb_false_elim in Hstop; destruct Hstop as [Hs _]; exact Hs. }
    assert (Hsd : String.eqb method "get_stock_data" = false).
    { unfold stop_after_first_success, in_list in Hstop; simpl in Hstop.
      apply orb_false_elim in Hstop; destruct Hstop as [_ Hs].
      apply orb_false_elim in Hs; destruct Hs as [Hs _]; exact Hs. }
    unfold stop_after_first_success, should_fallback_due_to_invalid_data, in_list.
    repeat first [ rewrite H1 | rewrite H2 | rewrite H3 | rewrite E1 | rewrite E2
                 | rewrite E3 | rewrite Hgi | rewrite Hsd | rewrite Hstop | progress simpl ].
    simpl; split; reflexivity.
Qed.

Lemma aggregate_results_witness :
  final_result [VObj "frame"] = VObj "frame" /\
  final_result [VStr "a"; VStr "b"] = VStr (join newline ["a"; "b"]) /\
  let table := match assoc "get_news" VENDOR_METHODS with Some t => t | None => [] end in
  let st := fst (run_loop all_answer "get_news" table ["alpha_vantage"; "openai"; "google"]
                          ["alpha_vantage"; "openai"; "google"] init_state) in
  results st = [VStr "news from alpha_vantage"; VStr "news from openai"; VStr "news from google"] /\
  final_result (results st) =
    VStr ("news from alpha_vantage" ++ newline ++ "news from openai" ++ newline
          ++ "news from google")%string.
Proof.
  destruct aggregate_results as (H1 & H2 & H3).
  split; [apply H1|]. split; [apply H2; simpl; lia|].
  apply (H3 all_answer "get_news" _ "alpha_vantage" "openai" "google"
            "get_news" "get_stock_news_openai" "get_google_news"); reflexivity.
Defined.

End Claims.

(* ------------------------------------------------------------------ *)
(** * Further properties of the code *)

Module StringFacts.
Import Py MarketIdentifier Shapes.

Lemma string_app_assoc (a b c : string) : ((a ++ b) ++ c)%string = (a ++ (b ++ c))%string.
Proof. induction a as [|x a IH]; simpl; [reflexivity | rewrite IH; reflexivity]. Qed.

Lemma string_app_nil_r (a : string) : (a ++ "")%string = a.
Proof. induction a as [|x a IH]; simpl; [reflexivity | rewrite IH; reflexivity]. Qed.

Lemma length_string_app (a b : string) :
  String.length (a ++ b) = String.length a + String.length b.
Proof. induction a as [|x a IH]; simpl; [reflexivity | rewrite IH; reflexivity]. Qed.

Lemma list_ascii_app (a b : string) :
  list_ascii_of_string (a ++ b) = list_ascii_of_string a ++ list_ascii_of_string b.
Proof. induction a as [|x a IH]; simpl; [reflexivity | rewrite IH; reflexivity]. Qed.

Lemma string_of_list_app (l1 l2 : list ascii) :
  string_of_list_ascii (l1 ++ l2) = (string_of_list_ascii l1 ++ string_of_list_ascii l2)%string.
Proof. induction l1 as [|x l IH]; simpl; [reflexivity | rewrite IH; reflexivity]. Qed.

Lemma map_chars_app f (a b : string) :
  map_chars f (a ++ b) = (map_chars f a ++ map_chars f b)%string.
Proof. induction a as [|x a IH]; simpl; [reflexivity | rewrite IH; reflexivity]. Qed.

Lemma all_chars_app q (a b : string) : all_chars q (a ++ b) = all_chars q a && all_chars q b.
Proof.
  unfold all_chars; rewrite list_ascii_app, forallb_app; reflexivity.
Qed.

Lemma all_chars_cons q c (s : string) : all_chars q (String c s) = q c && all_chars q s.
Proof. reflexivity. Qed.

Lemma all_chars_impl (q r : ascii -> bool) (s : string) :
  (forall c, q c = true -> r c = true) -> all_chars q s = true -> all_chars r s = true.
Proof.
  intro Hqr; induction s as [|c s IH]; simpl; [reflexivity|].
  rewrite all_chars_cons; intro H; apply andb_prop in H as [H1 H2].
  rewrite all_chars_cons, (Hqr c H1), (IH H2); reflexivity.
Qed.

Lemma map_chars_id f q (s : string) :
  (forall c, q c = true -> f c = c) -> all_chars q s = true -> map_chars f s = s.
Proof.
  intro Hf; induction s as [|c s IH]; simpl; [reflexivity|].
  rewrite all_chars_cons; intro H; apply andb_prop in H as [H1 H2].
  rewrite (Hf c H1), (IH H2); reflexivity.
Qed.

Lemma forallb_rev {A} (q : A -> bool) (l : list A) : forallb q (rev l) = forallb q l.
Proof.
  induction l as [|x l IH]; simpl; [reflexivity|].
  rewrite forallb_app, IH; simpl; rewrite andb_true_r, andb_comm; reflexivity.
Qed.

Lemma all_chars_rev q (s : string) : all_chars q (rev_string s) = all_chars q s.
Proof.
  unfold all_chars, rev_string; rewrite list_ascii_of_string_of_list_ascii, forallb_rev;
  reflexivity.
Qed.

Lemma rev_string_involutive (s : string) : rev_string (rev_string s) = s.
Proof.
  unfold rev_string; rewrite list_ascii_of_string_of_list_ascii, rev_involutive,
    string_of_list_ascii_of_string; reflexivity.
Qed.

Lemma rev_string_app (a b : string) :
  rev_string (a ++ b) = (rev_string b ++ rev_string a)%string.
Proof.
  unfold rev_string; rewrite list_ascii_app, rev_app_distr, string_of_list_app; reflexivity.
Qed.

Lemma lstrip_id (s : string) : all_chars (fun c => negb (is_space c)) s = true -> lstrip s = s.
Proof.
  destruct s as [|c s]; simpl; [reflexivity|].
  rewrite all_chars_cons; intro H; apply andb_prop in H as [H1 _].
  destruct (is_space c); [discriminate | reflexivity].
Qed.

Lemma strip_id (s : string) : all_chars (fun c => negb (is_space c)) s = true -> strip s = s.
Proof.
  intro H; unfold strip, rstrip; rewrite (lstrip_id s H), lstrip_id.
  - apply rev_string_involutive.
  - rewrite all_chars_rev; exact H.
Qed.


Lemma norm_id (s : string) : all_chars plain s = true -> strip (upper s) = s.
Proof.
  intro H; unfold upper.
  rewrite (map_chars_id char_upper plain s).
  - apply strip_id; revert H; apply all_chars_impl; unfold plain; intros c Hc;
      apply andb_prop in Hc as [_ Hc]; exact Hc.
  - intros c Hc; unfold plain in Hc; apply andb_prop in Hc as [Hc _].
    unfold char_upper; destruct (is_lower c); [discriminate | reflexivity].
  - exact H.
Qed.

Lemma digit_plain c : is_digit c = true -> plain c = true.
Proof.
  unfold is_digit, plain, is_lower, is_space; cbv zeta.
  destruct (Nat.leb_spec 48 (nat_of_ascii c)), (Nat.leb_spec (nat_of_ascii c) 57),
    (Nat.leb_spec 97 (nat_of_ascii c)), (Nat.leb_spec (nat_of_ascii c) 122),
    (Nat.leb_spec 9 (nat_of_ascii c)), (Nat.leb_spec (nat_of_ascii c) 13),
    (Nat.leb_spec 28 (nat_of_ascii c)), (Nat.leb_spec (nat_of_ascii c) 32);
    cbn; intro Hd; try reflexivity; try discriminate; lia.
Qed.


Lemma digit_neq c d : is_digit c = true -> is_digit d = false -> c <> d.
Proof. intros H1 H2 ->; congruence. Qed.

(** [prefix] *)
Lemma prefix_app_self (a b : string) : String.prefix a (a ++ b) = true.
Proof.
  induction a as [|x a IH]; simpl; [destruct b; reflexivity|].
  destruct (ascii_dec x x); [exact IH | congruence].
Qed.

Lemma prefix_inv (a s : string) : String.prefix a s = true -> exists r, s = (a ++ r)%string.
Proof.
  revert s; induction a as [|x a IH]; intro s; simpl.
  - intros _; exists s; reflexivity.
  - destruct s as [|y s]; simpl; [discriminate|].
    destruct (ascii_dec x y) as [->|]; [|discriminate].
    intro H; destruct (IH s H) as [r ->]; exists r; reflexivity.
Qed.

Lemma endswith_app_self (t p : string) : endswith (t ++ p) p = true.
Proof. unfold endswith; rewrite rev_string_app; apply prefix_app_self. Qed.

Lemma endswith_inv (s p : string) : endswith s p = true -> exists t, s = (t ++ p)%string.
Proof.
  unfold endswith; intro H; destruct (prefix_inv _ _ H) as [r Hr].
  exists (rev_string r).
  rewrite <- (rev_string_involutive s), Hr, rev_string_app, rev_string_involutive;
    reflexivity.
Qed.

Lemma endswith_all_chars q (s p : string) :
  endswith s p = true -> all_chars q s = true -> all_chars q p = true.
Proof.
  intros H Hs; destruct (endswith_inv s p H) as [t ->].
  rewrite all_chars_app in Hs; apply andb_prop in Hs as [_ Hs]; exact Hs.
Qed.

Lemma substring_app_prefix (t p : string) :
  String.substring 0 (String.length t) (t ++ p) = t.
Proof. induction t as [|x t IH]; simpl; [destruct p; reflexivity | rewrite IH; reflexivity]. Qed.

(** [split] *)
Lemma split_not_nil sep (s : string) : split sep s <> [].
Proof.
  induction s as [|c s IH]; simpl; [discriminate|].
  destruct (c =? sep)%char; [discriminate|].
  destruct (split sep s); discriminate.
Qed.

Lemma split_app_sep sep (a b : string) :
  split sep (a ++ String sep b) = split sep a ++ split sep b.
Proof.
  induction a as [|c a IH]; simpl.
  - rewrite Ascii.eqb_refl; reflexivity.
  - rewrite IH; destruct (c =? sep)%char; [reflexivity|].
    pose proof (split_not_nil sep a) as Hn.
    destruct (split sep a) as [|w ws]; [contradiction | reflexivity].
Qed.



Lemma digits_between_len a b s :
  digits_between a b s = true -> a <= String.length s <= b /\ all_chars is_digit s = true.
Proof.
  unfold digits_between; intro H; apply andb_prop in H as [H H3]; apply andb_prop in H as [H1 H2].
  apply Nat.leb_le in H1; apply Nat.leb_le in H2; auto.
Qed.

Lemma digits_between_intro a b s :
  a <= String.length s <= b -> all_chars is_digit s = true -> digits_between a b s = true.
Proof.
  intros [H1 H2] H3; unfold digits_between.
  apply Nat.leb_le in H1; apply Nat.leb_le in H2; rewrite H1, H2, H3; reflexivity.
Qed.



Lemma digits_all_plain s : all_chars is_digit s = true -> all_chars plain s = true.
Proof. apply all_chars_impl, digit_plain. Qed.

Lemma digit_not_char (d : ascii) : is_digit d = false ->
  forall s, all_chars is_digit s = true -> all_chars (fun c => negb (c =? d)%char) s = true.
Proof.
  intros Hd s; apply all_chars_impl; intros c Hc.
  destruct (Ascii.eqb_spec c d) as [->|]; [congruence | reflexivity].
Qed.




Lemma any_A_digits x : any_match A_STOCK_PATTERNS x = true -> digits_between 6 6 x = true.
Proof.
  unfold any_match, A_STOCK_PATTERNS; cbn [existsb].
  destruct (digits_between 6 6 x); [reflexivity|]; rewrite !andb_false_r; discriminate.
Qed.

Lemma any_A_len x : String.length x <> 6 -> any_match A_STOCK_PATTERNS x = false.
Proof.
  intro H; destruct (any_match A_STOCK_PATTERNS x) eqn:E; [|reflexivity].
  apply any_A_digits, digits_between_len in E; lia.
Qed.

Lemma any_HK_cases x : any_match HK_STOCK_PATTERNS x = true ->
  (endswith x ".HK" = true /\
   digits_between 4 5 (String.substring 0 (String.length x - 3) x) = true) \/
  digits_between 4 5 x = true.
Proof.
  unfold any_match, HK_STOCK_PATTERNS; cbn [existsb]; rewrite orb_false_r.
  intro H; apply orb_prop in H as [H|H]; [left; apply andb_prop in H; exact H | right; exact H].
Qed.

Lemma identify_market_norm x : all_chars plain x = true ->
  identify_market x =
    if any_match A_STOCK_PATTERNS x then "A_STOCK"
    else if any_match HK_STOCK_PATTERNS x then "HK_STOCK"
    else if any_match US_STOCK_PATTERNS x then "US_STOCK"
    else "UNKNOWN".
Proof. intro H; unfold identify_market; cbv zeta; rewrite (norm_id x H); reflexivity. Qed.

Lemma identify_market_cases s :
  identify_market s = "A_STOCK" \/ identify_market s = "HK_STOCK" \/
  identify_market s = "US_STOCK" \/ identify_market s = "UNKNOWN".
Proof.
  unfold identify_market; cbv zeta.
  destruct (any_match A_STOCK_PATTERNS _); [auto|].
  destruct (any_match HK_STOCK_PATTERNS _); [auto|].
  destruct (any_match US_STOCK_PATTERNS _); auto.
Qed.

Lemma identify_hk_shape s : identify_market s = "HK_STOCK" ->
  exists d, digits_between 4 5 d = true /\
            (strip (upper s) = d \/ strip (upper s) = (d ++ ".HK")%string).
Proof.
  unfold identify_market; cbv zeta.
  destruct (any_match A_STOCK_PATTERNS _); [discriminate|].
  destruct (any_match HK_STOCK_PATTERNS (strip (upper s))) eqn:E.
  - intros _; apply any_HK_cases in E as [[He Hd]|Hd].
    + destruct (endswith_inv _ _ He) as [t Ht].
      rewrite Ht, length_string_app, Nat.add_sub, substring_app_prefix in Hd.
      exists t; auto.
    + exists (strip (upper s)); auto.
  - destruct (any_match US_STOCK_PATTERNS _); discriminate.
Qed.




Lemma not_K_digits s : all_chars is_digit s = true ->
  all_chars (fun c => negb (c =? "K")%char) s = true.
Proof. apply digit_not_char; reflexivity. Qed.

Lemma endswith_HK_false s :
  all_chars (fun c => negb (c =? "K")%char) s = true -> endswith s ".HK" = false.
Proof.
  intro H; destruct (endswith s ".HK") eqn:E; [|reflexivity].
  pose proof (endswith_all_chars _ _ _ E H) as HK; discriminate.
Qed.

Lemma identify_hk_digits d : digits_between 4 5 d = true -> identify_market d = "HK_STOCK".
Proof.
  intro Hd; pose proof (digits_between_len _ _ _ Hd) as [Hl Ha].
  rewrite (identify_market_norm d (digits_all_plain d Ha)), any_A_len by lia.
  unfold any_match at 1, HK_STOCK_PATTERNS; cbn [existsb]; rewrite Hd, orb_true_r.
  reflexivity.
Qed.

Lemma identify_hk_suffix d : digits_between 4 5 d = true ->
  identify_market (d ++ ".HK") = "HK_STOCK".
Proof.
  intro Hd; pose proof (digits_between_len _ _ _ Hd) as [Hl Ha].
  assert (Hp : all_chars plain (d ++ ".HK") = true).
  { rewrite all_chars_app, (digits_all_plain d Ha); reflexivity. }
  rewrite (identify_market_norm _ Hp), any_A_len
    by (rewrite length_string_app; simpl; lia).
  unfold any_match at 1, HK_STOCK_PATTERNS; cbn [existsb].
  rewrite endswith_app_self, length_string_app.
  change (String.length ".HK") with 3; rewrite Nat.add_sub, substring_app_prefix, Hd.
  reflexivity.
Qed.




Lemma prefix_nil (s : string) : String.prefix "" s = true.
Proof. destruct s; reflexivity. Qed.

Lemma prefix_cons a p b t :
  String.prefix (String a p) (String b t) =
    match ascii_dec a b with left _ => String.prefix p t | right _ => false end.
Proof. reflexivity. Qed.

Lemma replace_fuel_no_dot f d :
  all_chars (fun c => negb (c =? ".")%char) d = true -> replace_fuel f ".HK" "" d = d.
Proof.
  revert f; induction d as [|c d IH]; intros f H; destruct f; cbn [replace_fuel];
    try reflexivity.
  rewrite all_chars_cons in H; apply andb_prop in H as [H1 H2].
  rewrite prefix_cons; destruct (ascii_dec "." c) as [<-|]; [discriminate|].
  rewrite (IH f H2); reflexivity.
Qed.

Lemma replace_fuel_hk f d :
  all_chars (fun c => negb (c =? ".")%char) d = true -> String.length d < f ->
  replace_fuel f ".HK" "" (d ++ ".HK") = d.
Proof.
  revert f; induction d as [|c d IH]; intros f H Hf.
  - destruct f as [|[|f]]; [simpl in Hf; lia | reflexivity | reflexivity].
  - destruct f as [|f]; [simpl in Hf; lia|].
    change ((String c d ++ ".HK")%string) with (String c (d ++ ".HK")).
    cbn [replace_fuel].
    rewrite all_chars_cons in H; apply andb_prop in H as [H1 H2].
    rewrite prefix_cons; destruct (ascii_dec "." c) as [<-|]; [discriminate|].
    rewrite (IH f H2) by (simpl in Hf; lia); reflexivity.
Qed.

Lemma zfill_digits45 d : digits_between 4 5 d = true -> digits_between 5 5 (zfill d 5) = true.
Proof.
  intro Hd; pose proof (digits_between_len _ _ _ Hd) as [Hl Ha].
  unfold zfill; destruct (Nat.leb_spec 5 (String.length d)).
  - apply digits_between_intro; [lia | exact Ha].
  - destruct d as [|c d']; [simpl in Hl; lia|].
    rewrite all_chars_cons in Ha; apply andb_prop in Ha as [Hc Ha'].
    assert (Hpm : ((c =? "+")%char || (c =? "-")%char) = false).
    { destruct (Ascii.eqb_spec c "+") as [->|]; [discriminate|].
      destruct (Ascii.eqb_spec c "-") as [->|]; [discriminate|reflexivity]. }
    rewrite Hpm; replace (5 - String.length (String c d')) with 1 by lia.
    change (repeat_char 1 "0"%char ++ String c d')%string with (String "0" (String c d')).
    apply digits_between_intro; [simpl in *; lia|].
    rewrite !all_chars_cons, Hc, Ha'; reflexivity.
Qed.

Lemma zfill_long d w : w <= String.length d -> zfill d w = d.
Proof. intro H; unfold zfill; apply Nat.leb_le in H; rewrite H; reflexivity. Qed.

Lemma digits_no_dot d : all_chars is_digit d = true ->
  all_chars (fun c => negb (c =? ".")%char) d = true.
Proof. apply digit_not_char; reflexivity. Qed.

Lemma char_upper_not_lower c : is_lower (char_upper c) = false.
Proof.
  unfold char_upper; destruct (is_lower c) eqn:E; [|exact E].
  unfold is_lower in *; cbv zeta in *.
  destruct (Nat.leb_spec 97 (nat_of_ascii c)), (Nat.leb_spec (nat_of_ascii c) 122);
    try discriminate.
  rewrite nat_ascii_embedding by lia.
  destruct (Nat.leb_spec 97 (nat_of_ascii c - 32)); [lia | reflexivity].
Qed.

Lemma lstrip_all_chars q s : all_chars q s = true -> all_chars q (lstrip s) = true.
Proof.
  induction s as [|c s IH]; simpl; [reflexivity|].
  rewrite all_chars_cons; intro H; apply andb_prop in H as [H1 H2].
  destruct (is_space c); [exact (IH H2) | rewrite all_chars_cons, H1, H2; reflexivity].
Qed.

Lemma strip_all_chars q s : all_chars q s = true -> all_chars q (strip s) = true.
Proof.
  intro H; unfold strip, rstrip; rewrite all_chars_rev.
  apply lstrip_all_chars; rewrite all_chars_rev; apply lstrip_all_chars, H.
Qed.

Lemma normalized_not_lower s :
  all_chars (fun c => negb (is_lower c)) (strip (upper s)) = true.
Proof.
  apply strip_all_chars; unfold upper; induction s as [|c s IH]; simpl; [reflexivity|].
  rewrite all_chars_cons, char_upper_not_lower, IH; reflexivity.
Qed.

Lemma startswith_lower_false s a p :
  is_lower a = true -> all_chars (fun c => negb (is_lower c)) s = true ->
  startswith s (String a p) = false.
Proof.
  intros Ha Hs; destruct (startswith s (String a p)) eqn:E; [|reflexivity].
  destruct (prefix_inv _ _ E) as [r ->]; simpl in Hs.
  rewrite all_chars_cons, Ha in Hs; discriminate.
Qed.

Lemma contains_prefix k s : String.prefix k s = true -> contains k s = true.
Proof. destruct s; simpl; intro H; rewrite H; reflexivity. Qed.

Lemma contains_app_r k a b : contains k b = true -> contains k (a ++ b) = true.
Proof.
  induction a as [|c a IH]; simpl; [auto|]; intro H; rewrite (IH H), orb_true_r; reflexivity.
Qed.

Lemma lower_app a b : lower (a ++ b) = (lower a ++ lower b)%string.
Proof. apply map_chars_app. Qed.

End StringFacts.

Module DateFacts.
Import Py Quality StringFacts.

Lemma strptime_month_len5 a b c x y m r :
  strptime_month [a; b; c; x; y] = Some (m, r) -> strptime_day r <> None ->
  c = "-"%char /\ r = [x; y] /\ a <> "-"%char /\ b <> "-"%char.
Proof.
  intros H Hd; unfold strptime_month in H.
  destruct b as [b0 b1 b2 b3 b4 b5 b6 b7], c as [c0 c1 c2 c3 c4 c5 c6 c7].
  repeat (cbv beta iota in H;
          match type of H with context [if ?v then _ else _] => is_var v; destruct v end).
  all: try discriminate H.
  all: match type of H with (if ?cnd then _ else _) = _ => destruct cnd eqn:E end;
       [|discriminate H].
  all: injection H as Hm Hr; subst r.
  all: try (exfalso; apply Hd; reflexivity).
  all: split; [reflexivity | split; [reflexivity | split]]; try discriminate.
  all: intro Heq;
       first [ subst a; vm_compute in E; discriminate E
             | destruct (a =? "1")%char, (a =? "0")%char; vm_compute in E; discriminate E ].
Qed.

Lemma strptime_day_len2 a b d : strptime_day [a; b] = Some d -> a <> "-"%char /\ b <> "-"%char.
Proof.
  unfold strptime_day; intro H; split; intros ->.
  - vm_compute in H; discriminate H.
  - destruct (a =? "3")%char, (a =? "1")%char, (a =? "2")%char, (a =? "0")%char,
      (a =? " ")%char; vm_compute in H; discriminate H.
Qed.

Lemma length_list_ascii s : length (list_ascii_of_string s) = String.length s.
Proof. induction s as [|c s IH]; simpl; [reflexivity | rewrite IH; reflexivity]. Qed.

Lemma strptime_ymd_shape d : strptime_ymd d = true -> String.length d = 10 ->
  exists y1 y2 y3 y4 m1 m2 d1 d2,
    d = String y1 (String y2 (String y3 (String y4 (String "-"
          (String m1 (String m2 (String "-" (String d1 (String d2 EmptyString))))))))) /\
    Forall (fun c => c <> "-"%char) [y1; y2; y3; y4; m1; m2; d1; d2].
Proof.
  intros H Hl; unfold strptime_ymd in H.
  rewrite <- (string_of_list_ascii_of_string d); rewrite <- length_list_ascii in Hl.
  destruct (list_ascii_of_string d)
    as [|y1 [|y2 [|y3 [|y4 [|c5 [|m1 [|m2 [|c8 [|d1 [|d2 [|? ?]]]]]]]]]]];
    simpl in Hl; try discriminate Hl.
  destruct c5 as [b0 b1 b2 b3 b4 b5 b6 b7].
  repeat (cbv beta iota in H;
          match type of H with context [if ?v then _ else _] => is_var v; destruct v end).
  all: try discriminate H.
  destruct (is_digit y1 && is_digit y2 && is_digit y3 && is_digit y4) eqn:Ey;
    [|discriminate H].
  repeat rewrite andb_true_iff in Ey; destruct Ey as [[[Hy1 Hy2] Hy3] Hy4].
  destruct (strptime_month [m1; m2; c8; d1; d2]) as [[m r]|] eqn:Em; [|discriminate H].
  destruct (strptime_day r) as [dd|] eqn:Ed; [|discriminate H].
  destruct (strptime_month_len5 _ _ _ _ _ _ _ Em) as (-> & -> & Hm1 & Hm2);
    [rewrite Ed; discriminate|].
  destruct (strptime_day_len2 _ _ _ Ed) as [Hd1 Hd2].
  exists y1, y2, y3, y4, m1, m2, d1, d2; split; [reflexivity|].
  repeat constructor; auto; intros ->; discriminate.
Qed.

Lemma replace_dash_cons f c s : c <> "-"%char ->
  replace_fuel (S f) "-" "" (String c s) = String c (replace_fuel f "-" "" s).
Proof.
  intro Hc; cbn [replace_fuel]; rewrite prefix_cons.
  destruct (ascii_dec "-" c) as [<-|]; [congruence | reflexivity].
Qed.

Lemma substring_full s : String.substring 0 (String.length s) s = s.
Proof. induction s as [|c s IH]; simpl; [reflexivity | rewrite IH; reflexivity]. Qed.

Lemma drop_one c s : drop 1 (String c s) = s.
Proof. unfold drop; simpl; rewrite Nat.sub_0_r; apply substring_full. Qed.

Lemma replace_dash_dash f s :
  replace_fuel (S f) "-" "" (String "-" s) = replace_fuel f "-" "" s.
Proof.
  cbn [replace_fuel]; rewrite prefix_cons.
  destruct (ascii_dec "-" "-") as [_|]; [|congruence].
  rewrite prefix_nil; simpl (String.length "-"); rewrite drop_one; reflexivity.
Qed.

End DateFacts.

Module LoopFacts.
Import Py Router Spec RouterFacts.

Lemma run_vendor_methods_values (env : Env) (vendor : string) :
  exceptions_only env ->
  forall impls i, fst (fst (run_vendor_methods env vendor i impls)) =
                  flat_map (returned env vendor) (seq i (length impls)).
Proof.
  intros Henv impls; induction impls as [|impl rest IH]; intro i; [reflexivity|].
  cbn [run_vendor_methods length seq flat_map]; unfold returned at 1.
  specialize (IH (S i)).
  destruct (env vendor i) as [v|ex] eqn:E.
  - destruct (run_vendor_methods env vendor (S i) rest) as [[vs evs] e]; simpl in *.
    rewrite IH; reflexivity.
  - destruct ex as [m|c m|c m b]; simpl.
    + destruct (run_vendor_methods env vendor (S i) rest) as [[vs evs] e]; exact IH.
    + destruct (run_vendor_methods env vendor (S i) rest) as [[vs evs] e]; exact IH.
    + rewrite (Henv _ _ _ _ _ E).
      destruct (run_vendor_methods env vendor (S i) rest) as [[vs evs] e].
      match goal with |- context [if ?c then _ else _] => destruct c end; exact IH.
Qed.

Lemma run_vendor_methods_single (env : Env) (vendor n : string) :
  fst (fst (run_vendor_methods env vendor 0 [n])) = returned env vendor 0.
Proof.
  unfold returned; simpl; destruct (env vendor 0) as [v|ex]; [reflexivity|].
  destruct (classify_exception ex); reflexivity.
Qed.

Lemma stop_false_not_indicators method primary :
  stop_after_first_success method primary = false -> String.eqb method "get_indicators" = false.
Proof.
  unfold stop_after_first_success, in_list; simpl.
  destruct (String.eqb method "get_indicators"); rewrite ?orb_true_l, ?orb_true_r;
    [discriminate | reflexivity].
Qed.

(** Without an early stop and with every exception caught, the loop
    collects the values of every vendor of the plan. *)
Lemma run_loop_collects env method table primary :
  exceptions_only env -> stop_after_first_success method primary = false ->
  forall plan st,
    results (fst (run_loop env method table primary plan st)) =
      results st ++ flat_map (vendor_values env table) plan.
Proof.
  intros Henv Hstop plan; induction plan as [|vendor rest IH]; intro st; simpl.
  - rewrite app_nil_r; reflexivity.
  - unfold vendor_values at 1.
    destruct (assoc vendor table) as [impl|]; [|apply IH].
    pose proof (run_vendor_methods_no_exc env vendor Henv (impl_names impl) 0) as Hn.
    pose proof (run_vendor_methods_values env vendor Henv (impl_names impl) 0) as Hv.
    destruct (run_vendor_methods env vendor 0 (impl_names impl)) as [[vr evs] e].
    simpl in Hn, Hv; subst e; rewrite <- Hv.
    destruct vr as [|v vs]; [rewrite IH; reflexivity|].
    unfold should_fallback_due_to_invalid_data.
    assert (Hsf : (match v :: vs with
                   | [r] => String.eqb method "get_indicators" &&
                            Quality._is_indicator_result_invalid (py_str r)
                   | _ => false end) = false).
    { destruct vs; [rewrite (stop_false_not_indicators _ _ Hstop)|]; reflexivity. }
    rewrite Hsf, Hstop, IH; simpl; rewrite <- app_assoc; reflexivity.
Qed.

Lemma count_attempt_invariant env method table primary :
  forall plan st, vendor_attempt_count st = length (attempted st) ->
    vendor_attempt_count (fst (run_loop env method table primary plan st)) =
      length (attempted (fst (run_loop env method table primary plan st))).
Proof.
  intro plan; induction plan as [|vendor rest IH]; intros st Hst; simpl; [exact Hst|].
  destruct (assoc vendor table) as [impl|]; [|apply IH, Hst].
  assert (Hc : vendor_attempt_count (count_attempt vendor st) =
               length (attempted (count_attempt vendor st))).
  { simpl; rewrite length_app, Hst; simpl; lia. }
  destruct (run_vendor_methods env vendor 0 (impl_names impl)) as [[vr evs] e].
  destruct e; [exact Hc|].
  destruct vr as [|v vs]; [apply IH, Hc|].
  destruct (should_fallback_due_to_invalid_data _ _); [apply IH, Hc|].
  destruct (stop_after_first_success _ _); [exact Hc | apply IH, Hc].
Qed.

(** With an early stop the loop accepts the values of at most one vendor
    of the plan. *)
Lemma run_loop_stop env method table primary :
  stop_after_first_success method primary = true ->
  forall plan st,
    results (fst (run_loop env method table primary plan st)) = results st \/
    exists vendor impl, In vendor plan /\ assoc vendor table = Some impl /\
      fst (fst (run_vendor_methods env vendor 0 (impl_names impl))) <> [] /\
      results (fst (run_loop env method table primary plan st)) =
        results st ++ fst (fst (run_vendor_methods env vendor 0 (impl_names impl))).
Proof.
  intros Hstop plan; induction plan as [|vendor rest IH]; intro st; simpl; [left; reflexivity|].
  destruct (assoc vendor table) as [impl|] eqn:Ha.
  2: { destruct (IH st) as [H | (w & i & Hin & H)]; [left; exact H | right].
       exists w, i; split; [right; exact Hin | exact H]. }
  assert (Hlift : forall st', results st' = results st ->
            results (fst (run_loop env method table primary rest st')) = results st \/
            exists vendor' impl', (vendor = vendor' \/ In vendor' rest) /\
              assoc vendor' table = Some impl' /\
              fst (fst (run_vendor_methods env vendor' 0 (impl_names impl'))) <> [] /\
              results (fst (run_loop env method table primary rest st')) =
                results st ++ fst (fst (run_vendor_methods env vendor' 0 (impl_names impl')))).
  { intros st' E; destruct (IH st') as [H | (w & i & Hin & H)]; rewrite E in H;
      [left; exact H | right; exists w, i; split; [right; exact Hin | exact H]]. }
  destruct (run_vendor_methods env vendor 0 (impl_names impl)) as [[vr evs] e] eqn:Er.
  destruct e; [left; reflexivity|].
  destruct vr as [|v vs]; [apply Hlift; reflexivity|].
  destruct (should_fallback_due_to_invalid_data _ _); [apply Hlift; reflexivity|].
  rewrite Hstop; right; exists vendor, impl; rewrite Er; simpl.
  split; [left; reflexivity | split; [exact Ha | split; [discriminate | reflexivity]]].
Qed.

Lemma fold_dedup_keeps (l acc : list string) :
  forall x, In x acc \/ In x l ->
    In x (fold_left (fun acc vendor => if in_list vendor acc then acc else acc ++ [vendor])
                    l acc).
Proof.
  revert acc; induction l as [|y l IH]; intros acc x Hx; simpl.
  - destruct Hx as [H | []]; exact H.
  - apply IH. destruct Hx as [H | [<- | H]].
    + left; destruct (in_list y acc); [exact H | apply in_or_app; left; exact H].
    + left; unfold in_list; destruct (existsb (String.eqb y) acc) eqn:E.
      * apply existsb_exists in E as [z [Hz Ez]]; apply String.eqb_eq in Ez; subst; exact Hz.
      * apply in_or_app; right; left; reflexivity.
    + right; exact H.
Qed.

Lemma registered_of_key (table : list (string * Impl)) vendor :
  In vendor (map fst table) -> registered table vendor = true.
Proof.
  intro H; unfold registered, assoc.
  destruct (find (fun kv => String.eqb (fst kv) vendor) table) eqn:E; [reflexivity|].
  apply in_map_iff in H as [[k i] [Hk Hin]]; simpl in Hk; subst.
  pose proof (find_none _ _ E (vendor, i) Hin) as Hf; simpl in Hf.
  rewrite String.eqb_refl in Hf; discriminate.
Qed.

Lemma count_lines_app (a b : list string) :
  Quality.count_lines (a ++ b) =
    (fst (Quality.count_lines a) + fst (Quality.count_lines b),
     snd (Quality.count_lines a) + snd (Quality.count_lines b)).
Proof.
  induction a as [|l a IH]; simpl.
  - destruct (Quality.count_lines b); reflexivity.
  - destruct (Quality.line_counts l) as [d v]; rewrite IH.
    destruct (Quality.count_lines a) as [d1 v1]; simpl; f_equal; lia.
Qed.

Lemma line_counts_le l : snd (Quality.line_counts l) <= fst (Quality.line_counts l).
Proof.
  unfold Quality.line_counts; cbv zeta.
  repeat match goal with |- context [if ?c then _ else _] => destruct c end; simpl; lia.
Qed.

Lemma count_lines_le ls : snd (Quality.count_lines ls) <= fst (Quality.count_lines ls).
Proof.
  induction ls as [|l ls IH]; simpl; [lia|].
  pose proof (line_counts_le l) as H.
  destruct (Quality.line_counts l) as [d v]; destruct (Quality.count_lines ls) as [d' v'].
  simpl in *; lia.
Qed.

End LoopFacts.

Module Extras.
Import Py MarketIdentifier Router Spec RouterFacts Shapes StringFacts DateFacts LoopFacts.

(** akshare_common.validate_market_support raises exactly for symbols of
    the UNKNOWN market, naming the market and the operation; otherwise it
    returns the market and get_market_info(symbol). *)
Theorem akshare_validate_market_support symbol operation :
  AKShareCommon.validate_market_support symbol operation =
    if String.eqb (identify_market symbol) "UNKNOWN"
    then inr ("Market UNKNOWN is not supported by AKShare for " ++ operation)%string
    else inl (identify_market symbol, get_market_info symbol).
Proof.
  unfold AKShareCommon.validate_market_support, is_market_supported; cbv zeta.
  change (mi_market (get_market_info symbol)) with (identify_market symbol).
  destruct (identify_market_cases symbol) as [E|[E|[E|E]]]; rewrite E; reflexivity.
Qed.

(** baostock_common.validate_market_support raises for every symbol that
    is not an A share (HK, US and UNKNOWN alike), naming its market. *)
Theorem baostock_validate_market_support symbol operation :
  BaoStockCommon.validate_market_support symbol operation =
    if String.eqb (identify_market symbol) "A_STOCK"
    then inl ("A_STOCK", get_market_info symbol)
    else inr ("Market " ++ identify_market symbol ++ " is not supported by BaoStock for "
              ++ operation ++ " (A-shares only)")%string.
Proof.
  unfold BaoStockCommon.validate_market_support, is_market_supported; cbv zeta.
  change (mi_market (get_market_info symbol)) with (identify_market symbol).
  destruct (identify_market_cases symbol) as [E|[E|[E|E]]]; rewrite E; reflexivity.
Qed.

(** Every exception handle_akshare_exception re-raises is classified as a
    network error by route_to_vendor, and every error message that
    route_to_vendor would class as network is re-raised, never returned as
    an "Error ..." string. *)
Theorem akshare_exception_handler_matches_router e_str operation symbol :
  (forall msg, AKShareCommon.handle_akshare_exception e_str operation symbol = inr msg ->
     forall cls, classify_exception (OtherError cls msg true) = Some CallNetwork) /\
  (existsb (fun keyword => contains keyword (lower e_str)) NETWORK_KEYWORDS = true ->
     exists msg, AKShareCommon.handle_akshare_exception e_str operation symbol = inr msg).
Proof.
  unfold AKShareCommon.handle_akshare_exception; cbv zeta; split.
  - intros msg.
    destruct (existsb _ _); [intro H | discriminate].
    assert (Hm : msg = ("Network error " ++ operation ++ AKShareCommon.symbol_info symbol
                        ++ ": " ++ e_str)%string) by congruence.
    subst msg; intro cls; unfold classify_exception; cbv beta iota.
    assert (Hn : contains "network" (lower ("Network error " ++ operation ++
                   AKShareCommon.symbol_info symbol ++ ": " ++ e_str)) = true).
    { rewrite lower_app.
      replace (lower "Network error ") with ("network" ++ " error ")%string by reflexivity.
      rewrite string_app_assoc; apply contains_prefix, prefix_app_self. }
    unfold NETWORK_KEYWORDS; cbn [existsb]; rewrite Hn, orb_true_l, orb_true_r.
    reflexivity.
  - intro H.
    replace ["connection"; "network"; "timeout"; "remote"; "aborted"; "disconnected"]
      with (NETWORK_KEYWORDS ++ ["disconnected"]) by reflexivity.
    rewrite existsb_app, H; eexists; reflexivity.
Qed.

(** An error message that route_to_vendor would class as network makes
    handle_baostock_exception re-raise, and the re-raised exception is
    still classified as network. *)
Theorem baostock_exception_handler_keeps_network e_str operation symbol :
  existsb (fun keyword => contains keyword (lower e_str)) NETWORK_KEYWORDS = true ->
  exists msg, BaoStockCommon.handle_baostock_exception e_str operation symbol = inr msg /\
    forall cls, classify_exception (OtherError cls msg true) = Some CallNetwork.
Proof.
  intro H; unfold BaoStockCommon.handle_baostock_exception; cbv zeta.
  replace ["baostock is not installed"; "no module named"; "connection"; "network";
           "timeout"; "remote"; "aborted"; "disconnected"]
    with (["baostock is not installed"; "no module named"] ++ NETWORK_KEYWORDS
          ++ ["disconnected"]) by reflexivity.
  rewrite !existsb_app, H, orb_true_l, orb_true_r; cbv beta iota.
  eexists; split; [reflexivity|].
  intro cls; unfold classify_exception; cbv beta iota.
  set (pre := ("BaoStock error " ++ operation ++ AKShareCommon.symbol_info symbol ++ ": ")%string).
  replace ("BaoStock error " ++ operation ++ AKShareCommon.symbol_info symbol ++ ": " ++ e_str)%string
    with (pre ++ e_str)%string by (subst pre; rewrite !string_app_assoc; reflexivity).
  apply existsb_exists in H as [k [Hk Hc]].
  replace (existsb (fun keyword => contains keyword (lower (pre ++ e_str))) NETWORK_KEYWORDS)
    with true; [reflexivity|].
  symmetry; apply existsb_exists; exists k; split; [exact Hk|].
  rewrite lower_app; apply contains_app_r, Hc.
Qed.

(** format_symbol_for_market(symbol, 'A_STOCK') is the upper-cased,
    stripped symbol: the branch that removes an "sz"/"sh" prefix can never
    fire, because the symbol is upper-cased before the lower-case prefixes
    are tested. *)
Theorem akshare_a_share_symbol_is_normalized symbol :
  AKShareCommon.format_symbol_for_market symbol "A_STOCK" = strip (upper symbol).
Proof.
  unfold AKShareCommon.format_symbol_for_market, format_symbol_for_vendor; cbv zeta.
  cbv [String.eqb Ascii.eqb Bool.eqb andb].
  rewrite !startswith_lower_false by (reflexivity || apply normalized_not_lower).
  reflexivity.
Qed.

(** An HK symbol formatted for akshare, yfinance or alpha_vantage is
    still classified HK_STOCK; for akshare it is a five-digit code. *)
Theorem hk_symbol_formats_keep_market symbol vendor :
  identify_market symbol = "HK_STOCK" ->
  In vendor ["akshare"; "yfinance"; "alpha_vantage"] ->
  identify_market (format_symbol_for_vendor symbol vendor None) = "HK_STOCK" /\
  (vendor = "akshare" -> digits_between 5 5 (format_symbol_for_vendor symbol vendor None) = true).
Proof.
  intros H Hv; destruct (identify_hk_shape symbol H) as [d [Hd Hu]].
  pose proof (digits_between_len _ _ _ Hd) as [Hl Ha].
  assert (Hak : format_symbol_for_vendor symbol "akshare" None = zfill d 5).
  { unfold format_symbol_for_vendor; cbv zeta; rewrite H.
    cbv [String.eqb Ascii.eqb Bool.eqb andb]; unfold replace.
    destruct Hu as [-> | ->].
    - rewrite replace_fuel_no_dot by (apply digits_no_dot, Ha); reflexivity.
    - rewrite replace_fuel_hk by (try apply digits_no_dot, Ha;
                                  rewrite length_string_app; simpl; lia).
      reflexivity. }
  assert (Hyf : forall v, In v ["yfinance"; "alpha_vantage"] ->
            format_symbol_for_vendor symbol v None = (d ++ ".HK")%string).
  { intros v Hv'; unfold format_symbol_for_vendor; cbv zeta; rewrite H.
    destruct Hv' as [<- | [<- | []]]; cbv [String.eqb Ascii.eqb Bool.eqb andb in_list existsb orb];
      destruct Hu as [-> | ->].
    all: first [ rewrite endswith_HK_false by (apply not_K_digits, Ha);
                 rewrite zfill_long by lia; reflexivity
               | rewrite endswith_app_self; reflexivity ]. }
  destruct Hv as [<- | Hv]; [|split; [| intros ->; destruct Hv as [[=] | [[=] | []]]]].
  - rewrite Hak; pose proof (zfill_digits45 d Hd) as Hz; split; [|intros _; exact Hz].
    apply identify_hk_digits; apply digits_between_len in Hz as [Hz1 Hz2].
    apply digits_between_intro; [lia | exact Hz2].
  - rewrite (Hyf vendor Hv); apply identify_hk_suffix, Hd.
Qed.


(** A YYYY-MM-DD date that akshare_common.validate_date_format accepts is
    turned by format_date_for_akshare into eight characters from which the
    date is rebuilt by inserting '-' after the fourth and the sixth. *)
Theorem akshare_date_round_trip date_str market :
  AKShareCommon.validate_date_format date_str = inl tt -> String.length date_str = 10 ->
  let c := AKShareCommon.format_date_for_akshare date_str market in
  String.length c = 8 /\
  (String.substring 0 4 c ++ "-" ++ String.substring 4 2 c ++ "-" ++ String.substring 6 2 c)%string
    = date_str.
Proof.
  intros Hv Hl c. unfold AKShareCommon.validate_date_format in Hv.
  destruct (Quality.strptime_ymd date_str) eqn:Hs; [|discriminate Hv].
  destruct (strptime_ymd_shape _ Hs Hl)
    as (y1 & y2 & y3 & y4 & m1 & m2 & d1 & d2 & -> & Hf).
  repeat match type of Hf with Forall _ (_ :: _) => inversion_clear Hf as [|? ? Hc Hf'];
    rename Hf' into Hf; revert Hc end.
  intros H8 H7 H6 H5 H4 H3 H2 H1.
  subst c; unfold AKShareCommon.format_date_for_akshare, replace.
  cbn [String.length].
  rewrite !replace_dash_cons, replace_dash_dash, !replace_dash_cons, replace_dash_dash,
    !replace_dash_cons by assumption.
  split; reflexivity.
Qed.

(** With every exception caught, run_vendor_methods calls each callable
    once, in order, records one event per call for this vendor, and
    returns the values of the calls that returned, in call order. *)
Theorem vendor_methods_call_each_once env vendor impls i :
  exceptions_only env ->
  let '(vs, evs, e) := run_vendor_methods env vendor i impls in
  vs = flat_map (returned env vendor) (seq i (length impls)) /\
  map (fun ev => snd (fst ev)) evs = impls /\
  Forall (fun ev => fst (fst ev) = vendor) evs /\ e = None.
Proof.
  intro Henv; revert i; induction impls as [|impl rest IH]; intro i; simpl.
  - repeat split; constructor.
  - unfold returned at 1; specialize (IH (S i)).
    destruct (env vendor i) as [v|ex] eqn:E.
    + destruct (run_vendor_methods env vendor (S i) rest) as [[vs evs] e].
      destruct IH as (-> & Hm & Hf & ->); simpl.
      repeat split; [rewrite Hm; reflexivity | constructor; [reflexivity | exact Hf]].
    + assert (Hc : exists k, classify_exception ex = Some k).
      { destruct ex as [m|c m|c m b]; simpl; [eexists; reflexivity | eexists; reflexivity|].
        rewrite (Henv _ _ _ _ _ E).
        match goal with |- context [if ?c then _ else _] => destruct c end;
          eexists; reflexivity. }
      destruct Hc as [k Hk]; rewrite Hk.
      destruct (run_vendor_methods env vendor (S i) rest) as [[vs evs] e].
      destruct IH as (-> & Hm & Hf & ->); simpl.
      repeat split; [rewrite Hm; reflexivity | constructor; [reflexivity | exact Hf]].
Qed.

Lemma vendor_methods_call_each_once_witness :
  exceptions_only Scenarios.mixed_env /\
  (let '(vs, evs, e) := run_vendor_methods Scenarios.mixed_env "local" 0
                          ["get_finnhub_news"; "get_reddit_company_news"; "get_google_news"] in
   vs = flat_map (returned Scenarios.mixed_env "local") (seq 0 3) /\
   map (fun ev => snd (fst ev)) evs =
     ["get_finnhub_news"; "get_reddit_company_news"; "get_google_news"] /\
   Forall (fun ev => fst (fst ev) = "local") evs /\ e = None).
Proof.
  split; [exact ScenarioFacts.mixed_env_exceptions_only|].
  exact (vendor_methods_call_each_once Scenarios.mixed_env "local"
           ["get_finnhub_news"; "get_reddit_company_news"; "get_google_news"] 0
           ScenarioFacts.mixed_env_exceptions_only).
Defined.

(** For a method that does not stop at the first success (not
    get_indicators or get_stock_data, and a vendor configuration that
    does not name exactly one vendor), with every exception caught,
    route_to_vendor collects the values of every vendor of the fallback
    plan, in plan order, and fails exactly when there are none. *)
Theorem aggregation_collects_plan_values config env method args kwargs category :
  get_category_for_method method = Some category ->
  exceptions_only env ->
  in_list method ["get_indicators"; "get_stock_data"] = false ->
  length (split ","%char (get_vendor config category (Some method)
                            (extract_symbol args kwargs))) <> 1 ->
  exists table, assoc method VENDOR_METHODS = Some table /\
    let rs := flat_map (vendor_values env table) (fallback_plan config method args kwargs) in
    results (snd (route_to_vendor config env method args kwargs)) = rs /\
    fst (route_to_vendor config env method args kwargs) =
      match rs with
      | [] => RuntimeError ("All vendor implementations failed for method '"
                            ++ method ++ "'")%string
      | _ => Ok (final_result rs)
      end.
Proof.
  intros Hcat Henv Hm Hlen.
  destruct (route_to_vendor_registered config env method args kwargs category Hcat Henv)
    as [table [Ht Hr]].
  exists table; split; [exact Ht|]; cbv zeta in *; rewrite Hr; simpl.
  rewrite run_loop_collects; [simpl | exact Henv |].
  - destruct (flat_map _ _); split; reflexivity.
  - unfold stop_after_first_success; rewrite Hm, length_map, orb_false_r.
    apply Nat.eqb_neq, Hlen.
Qed.

Lemma aggregation_collects_plan_values_witness :
  exists table, assoc "get_news" VENDOR_METHODS = Some table /\
    let rs := flat_map (vendor_values Scenarios.all_answer table)
                (fallback_plan Scenarios.market_config "get_news" ["AAPL"] []) in
    results (snd (route_to_vendor Scenarios.market_config Scenarios.all_answer
                    "get_news" ["AAPL"] [])) = rs /\
    fst (route_to_vendor Scenarios.market_config Scenarios.all_answer "get_news" ["AAPL"] []) =
      match rs with
      | [] => RuntimeError ("All vendor implementations failed for method '"
                            ++ "get_news" ++ "'")%string
      | _ => Ok (final_result rs)
      end.
Proof.
  apply (aggregation_collects_plan_values Scenarios.market_config Scenarios.all_answer
           "get_news" ["AAPL"] [] "news_data").
  - vm_compute; reflexivity.
  - intros v i c m b H; discriminate H.
  - vm_compute; reflexivity.
  - vm_compute; intro H; discriminate H.
Defined.

(** When route_to_vendor fails with "All vendor implementations failed"
    and the call has no market-specific configuration, every vendor
    registered for the method has been attempted. *)
Theorem exhausted_call_tried_every_vendor config env method args kwargs msg table :
  exceptions_only env ->
  market_specific config (extract_symbol args kwargs) = false ->
  assoc method VENDOR_METHODS = Some table ->
  fst (route_to_vendor config env method args kwargs) = RuntimeError msg ->
  forall vendor, In vendor (map fst table) ->
    In vendor (attempted (snd (route_to_vendor config env method args kwargs))).
Proof.
  intros Henv Hms Ht Hout vendor Hv.
  destruct (get_category_for_method method) as [category|] eqn:Hcat.
  2: { unfold route_to_vendor in Hout; rewrite Hcat in Hout; discriminate Hout. }
  destruct (route_to_vendor_registered config env method args kwargs category Hcat Henv)
    as [table' [Ht' Hr]].
  rewrite Ht in Ht'; injection Ht' as <-; cbv zeta in Hr; rewrite Hr in Hout |- *.
  simpl in Hout |- *.
  set (st := fst (run_loop env method table _ _ init_state)) in *.
  assert (Hres : results st = []) by (destruct (results st); [reflexivity | discriminate Hout]).
  subst st; rewrite run_loop_no_accept by assumption; simpl.
  apply filter_In; split; [|apply registered_of_key, Hv].
  unfold fallback_plan; rewrite Hcat, Ht; unfold build_fallback_vendors; rewrite Hms.
  apply fold_dedup_keeps; right; exact Hv.
Qed.

Lemma exhausted_call_tried_every_vendor_witness :
  In "local" (attempted (snd (route_to_vendor Scenarios.empty_config Scenarios.all_fail
                                "get_news" ["AAPL"] []))).
Proof.
  apply (exhausted_call_tried_every_vendor Scenarios.empty_config Scenarios.all_fail
           "get_news" ["AAPL"] [] "All vendor implementations failed for method 'get_news'"
           [("akshare", Single "get_stock_news"); ("alpha_vantage", Single "get_news");
            ("openai", Single "get_stock_news_openai"); ("google", Single "get_google_news");
            ("local", Multi ["get_finnhub_news"; "get_reddit_company_news"; "get_google_news"])]).
  - exact ScenarioFacts.all_fail_exceptions_only.
  - vm_compute; reflexivity.
  - vm_compute; reflexivity.
  - vm_compute; reflexivity.
  - simpl; tauto.
Defined.

(** route_to_vendor's vendor_attempt_count is the number of vendors it
    attempted, and these are, in order, a prefix of the registered
    vendors of the fallback plan: no vendor is counted twice in a row
    of the plan or skipped and counted later. *)
Theorem attempt_count_matches_attempts config env method args kwargs :
  let st := snd (route_to_vendor config env method args kwargs) in
  vendor_attempt_count st = length (attempted st) /\
  exists rest, attempted st ++ rest =
    filter (registered (match assoc method VENDOR_METHODS with Some t => t | None => [] end))
           (fallback_plan config method args kwargs).
Proof.
  cbv zeta; unfold route_to_vendor, fallback_plan.
  destruct (get_category_for_method method) as [category|];
    [|split; [reflexivity | exists []; reflexivity]].
  destruct (assoc method VENDOR_METHODS) as [table|];
    [|split; [reflexivity | exists []; reflexivity]].
  cbv zeta.
  match goal with
  | |- context [run_loop env method table ?p ?pl init_state] =>
      pose proof (count_attempt_invariant env method table p pl init_state eq_refl) as Hc;
      destruct (run_loop_attempted_prefix env method table p pl init_state) as (l & r & H1 & H2);
      destruct (run_loop env method table p pl init_state) as [st e]
  end.
  simpl in Hc, H1.
  destruct e as [e|]; [|destruct (results st)]; simpl;
    (split; [exact Hc | exists r; rewrite H1; exact H2]).
Qed.

(** get_indicators and get_stock_data stop at the first vendor whose
    value is accepted: a successful call returns exactly the value of
    the first callable of one vendor of the fallback plan. *)
Theorem single_result_methods_return_one_value config env method args kwargs v :
  in_list method ["get_indicators"; "get_stock_data"] = true ->
  fst (route_to_vendor config env method args kwargs) = Ok v ->
  results (snd (route_to_vendor config env method args kwargs)) = [v] /\
  exists vendor, In vendor (fallback_plan config method args kwargs) /\
    env vendor 0 = Returns v.
Proof.
  intros Hm Hok.
  assert (Hsingle : exists table, assoc method VENDOR_METHODS = Some table /\
            forall vendor impl, assoc vendor table = Some impl -> exists n, impl = Single n).
  { unfold in_list in Hm; simpl in Hm.
    destruct (String.eqb_spec method "get_indicators") as [->|_];
      [|destruct (String.eqb_spec method "get_stock_data") as [->|_]; [|discriminate Hm]];
      (eexists; split; [reflexivity|]);
      intros vendor impl H; unfold assoc in H; cbn [find fst snd] in H;
      repeat match type of H with context [String.eqb ?a ?b] =>
               destruct (String.eqb a b); cbn [find fst snd option_map] in H end;
      try discriminate H; injection H as <-; eexists; reflexivity. }
  destruct Hsingle as [table [Ht Hs]].
  unfold route_to_vendor in Hok |- *; unfold fallback_plan.
  destruct (get_category_for_method method) as [category|]; [|discriminate Hok].
  rewrite Ht in Hok |- *; cbv zeta in Hok |- *.
  set (primary := map strip _) in *.
  set (plan := build_fallback_vendors _ _ _ _) in *.
  assert (Hstop : stop_after_first_success method primary = true).
  { unfold stop_after_first_success; rewrite Hm, orb_true_r; reflexivity. }
  destruct (run_loop_stop env method table primary Hstop plan init_state)
    as [H | (vendor & impl & Hin & Ha & Hne & H)];
    destruct (run_loop env method table primary plan init_state) as [st e];
    simpl in H |- *; destruct e; try discriminate Hok.
  - rewrite H in Hok; discriminate Hok.
  - destruct (Hs vendor impl Ha) as [n ->].
    cbn [impl_names] in H, Hne; rewrite run_vendor_methods_single in H, Hne; unfold returned in H, Hne.
    destruct (env vendor 0) as [w|ex] eqn:Ew; [|contradiction Hne; reflexivity].
    rewrite H in Hok |- *; simpl in Hok; injection Hok as <-.
    split; [simpl; exact H | exists vendor; split; [exact Hin | exact Ew]].
Qed.

Lemma single_result_methods_return_one_value_witness :
  results (snd (route_to_vendor Scenarios.empty_config Scenarios.all_answer
                  "get_stock_data" ["AAPL"] [])) = [VStr "news from alpha_vantage"] /\
  exists vendor, In vendor (fallback_plan Scenarios.empty_config "get_stock_data" ["AAPL"] []) /\
    Scenarios.all_answer vendor 0 = Returns (VStr "news from alpha_vantage").
Proof.
  apply (single_result_methods_return_one_value Scenarios.empty_config Scenarios.all_answer
           "get_stock_data" ["AAPL"] []); vm_compute; reflexivity.
Defined.

(** The indicator quality gate counts a line as holding valid data only
    if it is a date line: valid_data_count never exceeds
    date_line_count. *)
Theorem valid_lines_are_date_lines s :
  Quality.valid_data_count s <= Quality.date_line_count s.
Proof. apply count_lines_le. Qed.

(** Appending lines without a date to a non-empty report does not change
    the verdict of the indicator quality gate. *)
Theorem quality_gate_ignores_dateless_lines a b :
  Py.truthy a = true -> Quality.date_line_count b = 0 ->
  Quality._is_indicator_result_invalid (a ++ newline ++ b) =
    Quality._is_indicator_result_invalid a.
Proof.
  intros Ha Hb.
  pose proof (count_lines_le (split "010"%char b)) as Hle.
  unfold Quality.date_line_count in Hb.
  assert (Hcnt : Quality.count_lines (split "010"%char (a ++ newline ++ b)) =
                 Quality.count_lines (split "010"%char a)).
  { change (a ++ newline ++ b)%string with (a ++ String "010"%char b)%string.
    rewrite split_app_sep, count_lines_app, Hb.
    destruct (Quality.count_lines (split "010"%char a)) as [d v]; simpl; f_equal; lia. }
  unfold Quality._is_indicator_result_invalid, Quality.date_line_count,
    Quality.valid_data_count; rewrite Hcnt, Ha.
  assert (Ht : truthy (a ++ newline ++ b) = true).
  { destruct a; [discriminate Ha | reflexivity]. }
  rewrite Ht; reflexivity.
Qed.

Lemma quality_gate_ignores_dateless_lines_witness :
  Quality._is_indicator_result_invalid (Scenarios.forty_report ++ newline ++ "done") =
    Quality._is_indicator_result_invalid Scenarios.forty_report.
Proof.
  apply quality_gate_ignores_dateless_lines; vm_compute; reflexivity.
Defined.


Lemma akshare_exception_handler_matches_router_witness :
  (forall msg, AKShareCommon.handle_akshare_exception "Read timeout" "fetching stock data"
                 (Some "000001") = inr msg ->
     forall cls, classify_exception (OtherError cls msg true) = Some CallNetwork) /\
  (existsb (fun keyword => contains keyword (lower "Read timeout")) NETWORK_KEYWORDS = true ->
     exists msg, AKShareCommon.handle_akshare_exception "Read timeout" "fetching stock data"
                   (Some "000001") = inr msg).
Proof.
  exact (akshare_exception_handler_matches_router "Read timeout" "fetching stock data"
           (Some "000001")).
Defined.

Lemma baostock_exception_handler_keeps_network_witness :
  existsb (fun keyword => contains keyword (lower "Connection reset by peer"))
    NETWORK_KEYWORDS = true /\
  exists msg, BaoStockCommon.handle_baostock_exception "Connection reset by peer"
                "fetching stock data" (Some "600000") = inr msg /\
    forall cls, classify_exception (OtherError cls msg true) = Some CallNetwork.
Proof.
  split; [vm_compute; reflexivity|].
  apply baostock_exception_handler_keeps_network; vm_compute; reflexivity.
Defined.

Lemma hk_symbol_formats_keep_market_witness :
  identify_market "0700.hk" = "HK_STOCK" /\
  identify_market (format_symbol_for_vendor "0700.hk" "akshare" None) = "HK_STOCK" /\
  ("akshare" = "akshare" ->
     digits_between 5 5 (format_symbol_for_vendor "0700.hk" "akshare" None) = true).
Proof.
  split; [vm_compute; reflexivity|].
  apply hk_symbol_formats_keep_market; [vm_compute; reflexivity | left; reflexivity].
Defined.


Lemma akshare_date_round_trip_witness :
  AKShareCommon.validate_date_format "2024-02-29" = inl tt /\
  String.length "2024-02-29" = 10 /\
  (let c := AKShareCommon.format_date_for_akshare "2024-02-29" "A_STOCK" in
   String.length c = 8 /\
   (String.substring 0 4 c ++ "-" ++ String.substring 4 2 c ++ "-" ++ String.substring 6 2 c)%string
     = "2024-02-29").
Proof.
  split; [vm_compute; reflexivity | split; [reflexivity|]].
  apply akshare_date_round_trip; vm_compute; reflexivity.
Defined.

(** A symbol identified as US_STOCK is passed by format_symbol_for_vendor
    to every vendor as its upper-cased, stripped form, with no suffix or
    prefix added. *)
Theorem us_symbol_format_is_normalized symbol vendor :
  identify_market symbol = "US_STOCK" ->
  format_symbol_for_vendor symbol vendor None = strip (upper symbol).
Proof.
  intro H; unfold format_symbol_for_vendor; cbv zeta; rewrite H.
  destruct (String.eqb vendor "akshare"); [reflexivity|].
  destruct (String.eqb vendor "baostock"); [reflexivity|].
  destruct (in_list vendor ["yfinance"; "alpha_vantage"]); reflexivity.
Qed.

Lemma us_symbol_format_is_normalized_witness :
  identify_market " aapl" = "US_STOCK" /\
  format_symbol_for_vendor " aapl" "yfinance" None = strip (upper " aapl").
Proof.
  split; [vm_compute; reflexivity|].
  apply us_symbol_format_is_normalized; vm_compute; reflexivity.
Defined.

End Extras.
